(** * Lifecycle classification and filtering of Node.js versions

    A shallow embedding of [source/index.ts] of [@bevry/nodejs-versions]
    (and of the vercel predicate of its predecessor, the single-dataset
    implementation), together with the properties its specification states.

    Conventions of the embedding.
    - A version input ([string | number] in the source) is a
      [NodeVersionInput]: a string, or a number kept as the text that
      [String()] prints for it, which also tells whether the number is
      truthy; a string is read as an input where one is expected.  An
      identifier of a repository is a string.
    - A [Date] is the integer [getTime()] gives for it (milliseconds since
      the epoch), a [Z]; invalid dates are outside the model.  An optional
      date ([lts?], [maintenance?]) is an [option].
    - A function that can [throw] returns a [result]; the module-level
      variables of the source ([preloaded], the three latest identifiers and
      [now]) form the record [State], passed explicitly.
    - The packages the source imports ([version-compare], [version-range],
      [@bevry/nodejs-schedule], [@bevry/nodejs-releases]) are the fields of
      the class [Collaborators]; every general theorem holds for all of
      them. *)

From Stdlib Require Import ZArith List String Ascii Bool Lia.
Import ListNotations.

Open Scope string_scope.
Open Scope list_scope.
Open Scope Z_scope.

(** ** Results of functions that may throw *)

Definition Error := string.

Inductive result (A : Type) : Type :=
| Ok (a : A)
| Throw (e : Error).

Arguments Ok {A} a.
Arguments Throw {A} e.

Definition bind {A B : Type} (r : result A) (k : A -> result B) : result B :=
  match r with
  | Ok a => k a
  | Throw e => Throw e
  end.

Declare Scope result_scope.
Delimit Scope result_scope with result.
Notation "x <- r ;; k" := (bind r (fun x => k))
  (at level 100, r at next level, right associativity) : result_scope.
Open Scope result_scope.

(** [returns r]: the call completed without throwing. *)
Definition returns {A : Type} (r : result A) : Prop := exists a, r = Ok a.

(** ** Data model *)

(** Either a significant or an absolute Node.js version number input: a
    string or a number.  A number is kept as the text [String()] prints
    for it; that text also tells whether the number is falsy, since only
    [0], [-0] and [NaN] print as [0] and [NaN]. *)
Inductive NodeVersionInput : Type :=
| Text (text : string)
| Numeral (printed : string).

Coercion Text : string >-> NodeVersionInput.

Abbreviation NodeScheduleInput := NodeVersionInput (only parsing).
Abbreviation NodeReleaseInput := NodeVersionInput (only parsing).

(** Either a significant or an absolute Node.js version number, as the
    repositories list them. *)
Abbreviation NodeVersionIdentifier := string (only parsing).
Abbreviation NodeScheduleIdentifier := string (only parsing).

(** [String(version)]. *)
Definition String_of (version : NodeVersionInput) : string :=
  match version with
  | Text text => text
  | Numeral printed => printed
  end.

(** Milliseconds since the epoch, the value of [Date.getTime()]. *)
Definition Instant := Z.

(** The schedule entry of a release line ([NodeScheduleInformation]). *)
Module Schedule.
Record t : Type := Build {
  version : NodeScheduleIdentifier;
  start : Instant;
  end_ : Instant;
  lts : option Instant;
  maintenance : option Instant;
  codename : option string
}.
End Schedule.

(** The entry of an absolute release ([NodeReleaseInformation]); [lts] is
    [Some label] exactly when [typeof lts === 'string']. *)
Module Release.
Record t : Type := Build {
  date : Instant;
  lts : option string
}.
End Release.

(** The imported packages.  The two repositories answer as they do once
    they are populated; the source consults them only behind its
    [preloaded] guard, [getNodeScheduleInformationSafe] apart. *)
Class Collaborators : Type := {
  versionCompare : NodeVersionInput -> NodeVersionInput -> Z;
  withinRange : NodeVersionInput -> string -> bool;
  preloadNodeSchedule : result unit;
  preloadNodeReleases : result unit;
  getNodeScheduleIdentifiers : list NodeScheduleIdentifier;
  getNodeScheduleInformation : NodeScheduleInput -> result Schedule.t;
  getNodeReleaseIdentifiers : list NodeVersionIdentifier;
  getNodeReleaseInformation : NodeReleaseInput -> result Release.t
}.

(** ** Strings *)

(** [String.prototype.split('.')]. *)
Fixpoint split_dot (s : string) : list string :=
  match s with
  | EmptyString => [EmptyString]
  | String c rest =>
      if Ascii.eqb c "."%char then EmptyString :: split_dot rest
      else match split_dot rest with
           | h :: t => String c h :: t
           | [] => [String c EmptyString]
           end
  end.

(** Helper method to detect if a version number is an absolute version
    number or not. *)
Definition isAbsoluteVersion (version : NodeVersionInput) : bool :=
  (List.length (split_dot (String_of version)) =? 3)%nat.

(** [last] of [@bevry/list]: [list[list.length - 1]], [undefined] on the
    empty list. *)
Fixpoint last {A : Type} (l : list A) : option A :=
  match l with
  | [] => None
  | [x] => Some x
  | _ :: l' => last l'
  end.

(** [Array.prototype.filter] with a callback that may throw: the callback
    runs on the elements in order and the first exception escapes. *)
Fixpoint filterM {A : Type} (p : A -> result bool) (l : list A)
  : result (list A) :=
  match l with
  | [] => Ok []
  | x :: l' =>
      b <- p x ;;
      r <- filterM p l' ;;
      Ok (if b then x :: r else r)
  end.

(** [a || b] on optional dates: a [Date] object is truthy, [undefined] is
    not. *)
Definition or_date (a b : option Instant) : option Instant :=
  match a with
  | Some _ => a
  | None => b
  end.

(** The tail of every date-window predicate:
    [if (!start || !end) return false] and then
    [now >= start.getTime() && now <= end.getTime()]. *)
Definition window (start end_ : option Instant) (now : Instant) : bool :=
  match start, end_ with
  | Some start, Some end_ => (start <=? now) && (now <=? end_)
  | _, _ => false
  end.

(** ** Module state *)

Record State : Type := mkState {
  preloaded : bool;
  nodeVersionLatestCurrent : option NodeScheduleIdentifier;
  nodeVersionLatestActive : option NodeScheduleIdentifier;
  nodeVersionLatestMaintenance : option NodeScheduleIdentifier;
  now : Instant
}.

(** The state when the module has just been loaded at instant [t0]. *)
Definition initial (t0 : Instant) : State :=
  mkState false None None None t0.

Definition set_preloaded (b : bool) (s : State) : State :=
  mkState b (nodeVersionLatestCurrent s) (nodeVersionLatestActive s)
    (nodeVersionLatestMaintenance s) (now s).

Definition set_latestCurrent (v : option NodeScheduleIdentifier) (s : State)
  : State :=
  mkState (preloaded s) v (nodeVersionLatestActive s)
    (nodeVersionLatestMaintenance s) (now s).

Definition set_latestActive (v : option NodeScheduleIdentifier) (s : State)
  : State :=
  mkState (preloaded s) (nodeVersionLatestCurrent s) v
    (nodeVersionLatestMaintenance s) (now s).

Definition set_latestMaintenance (v : option NodeScheduleIdentifier)
  (s : State) : State :=
  mkState (preloaded s) (nodeVersionLatestCurrent s)
    (nodeVersionLatestActive s) v (now s).

Definition set_now (t : Instant) (s : State) : State :=
  mkState (preloaded s) (nodeVersionLatestCurrent s)
    (nodeVersionLatestActive s) (nodeVersionLatestMaintenance s) t.

(** Get or set the datetime that is compared against the times specified in
    the version metadata. *)
Definition datetime (when : option Instant) (s : State) : Instant * State :=
  match when with
  | Some t => (t, set_now t s)
  | None => (now s, s)
  end.

(** The message of the guard of every filter. *)
Definition unpreloaded (filter : string) : Error :=
  ("You must await [preloadNodeVersions] prior to using the [" ++ filter
    ++ "] filter.")%string.

(** The available filters to apply.  A key that is absent is [None]; a
    boolean key can also be present with the value [false]. *)
Module Filters.
Record t : Type := Build {
  these : option (list NodeVersionInput);
  between : option (NodeVersionInput * NodeVersionInput);
  lte : option NodeVersionInput;
  gte : option NodeVersionInput;
  range : option string;
  active : option bool;
  activeOrCurrent : option bool;
  current : option bool;
  esm : option bool;
  latestActive : option bool;
  latestCurrent : option bool;
  latestMaintenance : option bool;
  lts : option bool;
  maintained : option bool;
  maintainedOrLTS : option bool;
  maintenance : option bool;
  released : option bool;
  vercel : option bool
}.

(** A configuration that uses boolean keys only. *)
Definition booleanOnly (f : t) : Prop :=
  these f = None /\ between f = None /\ lte f = None /\ gte f = None
  /\ range f = None.

(** The conjunction of two values of a boolean key: truthy when either
    is. *)
Definition conj_flag (a b : option bool) : option bool :=
  match a, b with
  | Some true, _ => Some true
  | _, Some true => Some true
  | None, _ => b
  | _, _ => a
  end.

(** A parametric key of the second configuration overrides that of the
    first, as in [{...a, ...b}]. *)
Definition override {K : Type} (a b : option K) : option K :=
  match b with
  | Some _ => b
  | None => a
  end.

(** The conjunction of two configurations, the merge the specification
    speaks of: a boolean key constrains when it does in [a] or in [b]. *)
Definition conj (a b : t) : t :=
  Build (override (these a) (these b))
    (override (between a) (between b))
    (override (lte a) (lte b))
    (override (gte a) (gte b))
    (override (range a) (range b))
    (conj_flag (active a) (active b))
    (conj_flag (activeOrCurrent a) (activeOrCurrent b))
    (conj_flag (current a) (current b))
    (conj_flag (esm a) (esm b))
    (conj_flag (latestActive a) (latestActive b))
    (conj_flag (latestCurrent a) (latestCurrent b))
    (conj_flag (latestMaintenance a) (latestMaintenance b))
    (conj_flag (lts a) (lts b))
    (conj_flag (maintained a) (maintained b))
    (conj_flag (maintainedOrLTS a) (maintainedOrLTS b))
    (conj_flag (maintenance a) (maintenance b))
    (conj_flag (released a) (released b))
    (conj_flag (vercel a) (vercel b)).

(** The object spread [{...a, ...b}], for comparison: every key that [b]
    holds, also one it holds as [false], overrides that of [a]. *)
Definition spread (a b : t) : t :=
  Build (override (these a) (these b))
    (override (between a) (between b))
    (override (lte a) (lte b))
    (override (gte a) (gte b))
    (override (range a) (range b))
    (override (active a) (active b))
    (override (activeOrCurrent a) (activeOrCurrent b))
    (override (current a) (current b))
    (override (esm a) (esm b))
    (override (latestActive a) (latestActive b))
    (override (latestCurrent a) (latestCurrent b))
    (override (latestMaintenance a) (latestMaintenance b))
    (override (lts a) (lts b))
    (override (maintained a) (maintained b))
    (override (maintainedOrLTS a) (maintainedOrLTS b))
    (override (maintenance a) (maintenance b))
    (override (released a) (released b))
    (override (vercel a) (vercel b)).
End Filters.

(** Truthiness of the values a filter key can hold. *)
Definition truthy_string (s : string) : bool :=
  match s with
  | EmptyString => false
  | String _ _ => true
  end.

(** A string is falsy when it is empty, a number when it is [0], [-0] or
    [NaN]. *)
Definition truthy_input (v : NodeVersionInput) : bool :=
  match v with
  | Text text => truthy_string text
  | Numeral printed =>
      negb (String.eqb printed "0") && negb (String.eqb printed "NaN")
  end.

Definition truthy_flag (o : option bool) : bool :=
  match o with
  | Some true => true
  | _ => false
  end.

(** One line of [isNodeVersion]:
    [if (filters.key && !test(version)) return false], then the rest.  The
    test runs only when the key is truthy. *)
Definition unless_fails (wanted : bool) (test : result bool)
  (rest : result bool) : result bool :=
  if wanted then (passed <- test ;; if passed then rest else Ok false)
  else rest.

(** The same line for a key that carries a parameter: an absent key is
    [undefined], a present one is tested for truthiness first (an array or a
    tuple always is truthy, a string when it is not empty, a number when
    it is neither zero nor [NaN]). *)
Definition with_param {K : Type} (truthy : K -> bool) (key : option K)
  (test : K -> bool) (rest : result bool) : result bool :=
  match key with
  | Some k => unless_fails (truthy k) (Ok (test k)) rest
  | None => rest
  end.

Section Versions.

Context `{Collaborators}.

(** Helper to return [false] if the Node.js version does not exist in the
    schedule (prior to 0.8, or say 0.9, or 0.11); [false] is [None]. *)
Definition getNodeScheduleInformationSafe (version : NodeScheduleInput)
  : result (option Schedule.t) :=
  if (versionCompare version "0.8" =? -1)
     || (versionCompare version "0.9" =? 0)
     || (versionCompare version "0.11" =? 0)
  then Ok None
  else (info <- getNodeScheduleInformation version ;; Ok (Some info)).

(** *** Filtering *)

(** Is the version of these versions? *)
Definition isNodeVersionThese (version : NodeVersionInput)
  (these : list NodeVersionInput) : bool :=
  match find (fun seek => versionCompare version seek =? 0) these with
  | Some seek => truthy_input seek
  | None => false
  end.

(** Is the version within (inclusive) of these two versions? *)
Definition isNodeVersionBetween (version : NodeVersionInput)
  (tuple : NodeVersionInput * NodeVersionInput) : bool :=
  (versionCompare version (fst tuple) >=? 0)
  && (versionCompare version (snd tuple) <=? 0).

(** Is the version the latest active LTS release? *)
Definition isNodeVersionLatestActive (s : State)
  (version : NodeVersionInput) : result bool :=
  match nodeVersionLatestActive s with
  | None => Throw (unpreloaded "isNodeVersionLatestActive")
  | Some latest => Ok (versionCompare version latest =? 0)
  end.

(** Is the version the latest current release? *)
Definition isNodeVersionLatestCurrent (s : State)
  (version : NodeVersionInput) : result bool :=
  match nodeVersionLatestCurrent s with
  | None => Throw (unpreloaded "isNodeVersionLatestCurrent")
  | Some latest => Ok (versionCompare version latest =? 0)
  end.

(** Is the version the latest maintenance release? *)
Definition isNodeVersionLatestMaintenance (s : State)
  (version : NodeVersionInput) : result bool :=
  match nodeVersionLatestMaintenance s with
  | None => Throw (unpreloaded "isNodeVersionLatestMaintenance")
  | Some latest => Ok (versionCompare version latest =? 0)
  end.

(** Is the version lesser than or equal to the seek version? *)
Definition isNodeVersionLTE (version seek : NodeVersionInput) : bool :=
  versionCompare version seek <=? 0.

(** Is the version greater than or equal to the seek version? *)
Definition isNodeVersionGTE (version seek : NodeVersionInput) : bool :=
  versionCompare version seek >=? 0.

(** Is the version within this range? *)
Definition isNodeVersionWithinRange (version : NodeVersionInput)
  (range : string) : bool :=
  withinRange version range.

(** Is the version an active LTS release? *)
Definition isNodeVersionActive (s : State) (version : NodeVersionInput)
  : result bool :=
  if negb (preloaded s) then Throw (unpreloaded "isNodeVersionActive")
  else
    labelled <-
      (if isAbsoluteVersion version
       then (info <- getNodeReleaseInformation version ;;
             Ok (match Release.lts info with
                 | Some _ => true
                 | None => false
                 end))
       else Ok true) ;;
    if negb labelled then Ok false
    else
      meta <- getNodeScheduleInformationSafe version ;;
      match meta with
      | None => Ok false
      | Some meta =>
          let start := Schedule.lts meta in
          let end_ :=
            or_date (Schedule.maintenance meta)
              (Some (Schedule.end_ meta)) in
          Ok (window start end_ (now s))
      end.

(** Is the version a active or current release? *)
Definition isNodeVersionActiveOrCurrent (s : State)
  (version : NodeScheduleInput) : result bool :=
  if negb (preloaded s)
  then Throw (unpreloaded "isNodeVersionActiveOrCurrent")
  else
    meta <- getNodeScheduleInformationSafe version ;;
    match meta with
    | None => Ok false
    | Some meta =>
        let start := Some (Schedule.start meta) in
        let end_ :=
          or_date (Schedule.maintenance meta)
            (Some (Schedule.end_ meta)) in
        Ok (window start end_ (now s))
    end.

(** Has the version existed at some point? *)
Definition isNodeVersionReleased (s : State) (version : NodeVersionInput)
  : result bool :=
  if negb (preloaded s) then Throw (unpreloaded "isNodeVersionReleased")
  else
    date <-
      (if isAbsoluteVersion version
       then (info <- getNodeReleaseInformation version ;;
             Ok (Some (Release.date info)))
       else (meta <- getNodeScheduleInformationSafe version ;;
             match meta with
             | None => Ok None
             | Some meta => Ok (Some (Schedule.start meta))
             end)) ;;
    match date with
    | None => Ok false
    | Some date => Ok (now s >=? date)
    end.

(** Is the version a current release? *)
Definition isNodeVersionCurrent (s : State) (version : NodeScheduleInput)
  : result bool :=
  if negb (preloaded s) then Throw (unpreloaded "isNodeVersionCurrent")
  else
    meta <- getNodeScheduleInformationSafe version ;;
    match meta with
    | None => Ok false
    | Some meta =>
        let start := Some (Schedule.start meta) in
        let end_ :=
          or_date (Schedule.lts meta)
            (or_date (Schedule.maintenance meta)
               (Some (Schedule.end_ meta))) in
        Ok (window start end_ (now s))
    end.

(** Does the version natively support ESM? *)
Definition isNodeVersionESM (version : NodeVersionInput) : bool :=
  versionCompare version "12" >=? 0.

(** [Boolean(meta.lts || !meta.maintenance)]. *)
Definition lts_or_historical (meta : Schedule.t) : bool :=
  match Schedule.lts meta, Schedule.maintenance meta with
  | Some _, _ => true
  | None, None => true
  | None, Some _ => false
  end.

(** Is the version a LTS release?  Tolerates unreleased versions. *)
Definition isNodeVersionLTS (s : State) (version : NodeVersionInput)
  : result bool :=
  if negb (preloaded s) then Throw (unpreloaded "isNodeVersionLTS")
  else
    labelled <-
      (if isAbsoluteVersion version && (versionCompare version "1" >=? 0)
       then (info <- getNodeReleaseInformation version ;;
             Ok (match Release.lts info with
                 | Some _ => true
                 | None => false
                 end))
       else Ok true) ;;
    if negb labelled then Ok false
    else
      meta <- getNodeScheduleInformationSafe version ;;
      match meta with
      | None => Ok false
      | Some meta => Ok (lts_or_historical meta)
      end.

(** Is the version currently maintained? *)
Definition isNodeVersionMaintained (s : State) (version : NodeScheduleInput)
  : result bool :=
  if negb (preloaded s) then Throw (unpreloaded "isNodeVersionMaintained")
  else
    meta <- getNodeScheduleInformationSafe version ;;
    match meta with
    | None => Ok false
    | Some meta =>
        let start := Some (Schedule.start meta) in
        let end_ := Some (Schedule.end_ meta) in
        Ok (window start end_ (now s))
    end.

(** Is the version a maintained release or a historical LTS release?
    Excludes unreleased versions. *)
Definition isNodeVersionMaintainedOrLTS (s : State)
  (version : NodeScheduleInput) : result bool :=
  if negb (preloaded s)
  then Throw (unpreloaded "isNodeVersionMaintainedOrLTS")
  else
    meta <- getNodeScheduleInformationSafe version ;;
    match meta with
    | None => Ok false
    | Some meta =>
        let start := Schedule.start meta in
        let end_ := Schedule.end_ meta in
        let released := now s >=? start in
        if negb released then Ok false
        else
          let maintained := now s <=? end_ in
          if maintained then Ok true
          else Ok (lts_or_historical meta)
    end.

(** Is the version a maintenance release? *)
Definition isNodeVersionMaintenance (s : State)
  (version : NodeScheduleInput) : result bool :=
  if negb (preloaded s) then Throw (unpreloaded "isNodeVersionMaintenance")
  else
    meta <- getNodeScheduleInformationSafe version ;;
    match meta with
    | None => Ok false
    | Some meta =>
        let start := Schedule.maintenance meta in
        let end_ := Some (Schedule.end_ meta) in
        Ok (window start end_ (now s))
    end.

(** Is the node version compatible with vercel? *)
Definition isNodeVersionVercel (version : NodeVersionInput) : bool :=
  (versionCompare version "10" =? 0)
  || (versionCompare version "12" =? 0)
  || (versionCompare version "14" =? 0).

(** Is the node version compatible with these filters?  The checks run
    in the order of the source, each one only when its key is truthy. *)
Definition isNodeVersion (s : State) (version : NodeVersionInput)
  (filters : Filters.t) : result bool :=
  (* with params *)
  with_param (fun _ => true) (Filters.these filters)
    (isNodeVersionThese version)
  (with_param (fun _ => true) (Filters.between filters)
    (isNodeVersionBetween version)
  (with_param truthy_input (Filters.lte filters)
    (isNodeVersionLTE version)
  (with_param truthy_input (Filters.gte filters)
    (isNodeVersionGTE version)
  (with_param truthy_string (Filters.range filters)
    (isNodeVersionWithinRange version)
  (* without params *)
  (unless_fails (truthy_flag (Filters.active filters))
    (isNodeVersionActive s version)
  (unless_fails (truthy_flag (Filters.activeOrCurrent filters))
    (isNodeVersionActiveOrCurrent s version)
  (unless_fails (truthy_flag (Filters.current filters))
    (isNodeVersionCurrent s version)
  (unless_fails (truthy_flag (Filters.esm filters))
    (Ok (isNodeVersionESM version))
  (unless_fails (truthy_flag (Filters.latestActive filters))
    (isNodeVersionLatestActive s version)
  (unless_fails (truthy_flag (Filters.latestCurrent filters))
    (isNodeVersionLatestCurrent s version)
  (unless_fails (truthy_flag (Filters.latestMaintenance filters))
    (isNodeVersionLatestMaintenance s version)
  (unless_fails (truthy_flag (Filters.lts filters))
    (isNodeVersionLTS s version)
  (unless_fails (truthy_flag (Filters.maintained filters))
    (isNodeVersionMaintained s version)
  (unless_fails (truthy_flag (Filters.maintainedOrLTS filters))
    (isNodeVersionMaintainedOrLTS s version)
  (unless_fails (truthy_flag (Filters.maintenance filters))
    (isNodeVersionMaintenance s version)
  (unless_fails (truthy_flag (Filters.released filters))
    (isNodeVersionReleased s version)
  (unless_fails (truthy_flag (Filters.vercel filters))
    (Ok (isNodeVersionVercel version))
  (Ok true)))))))))))))))))).

(** Filter the supplied versions. *)
Definition filterNodeVersions (s : State)
  (versions : list NodeVersionIdentifier) (filters : Filters.t)
  : result (list NodeVersionIdentifier) :=
  filterM (fun version : NodeVersionIdentifier =>
             isNodeVersion s version filters) versions.

(** Filter the significant Node.js versions. *)
Definition filterSignificantNodeVersions (s : State) (filters : Filters.t)
  : result (list NodeVersionIdentifier) :=
  if negb (preloaded s)
  then Throw "You must await [preloadNodeVersions] prior to using [filterSignificantNodeVersions]."
  else filterNodeVersions s getNodeScheduleIdentifiers filters.

(** Filter the absolute Node.js versions. *)
Definition filterAbsoluteNodeVersions (s : State) (filters : Filters.t)
  : result (list NodeVersionIdentifier) :=
  if negb (preloaded s)
  then Throw "You must await [preloadNodeVersions] prior to using [filterAbsoluteNodeVersions]."
  else filterNodeVersions s getNodeReleaseIdentifiers filters.

(** *** Preloading *)

(** A command on the module state that may throw; the state written
    before the exception stays written. *)
Definition Command (A : Type) : Type := State -> result A * State.

Definition andThen {A B : Type} (c : Command A) (k : A -> Command B)
  : Command B :=
  fun s =>
    match c s with
    | (Ok a, s') => k a s'
    | (Throw e, s') => (Throw e, s')
    end.

Definition await {A : Type} (r : result A) : Command A := fun s => (r, s).

Definition reading {A : Type} (f : State -> result A) : Command A :=
  fun s => (f s, s).

Definition assign (f : State -> State) : Command unit :=
  fun s => (Ok tt, f s).

(** Fetch the metadata for the various Node.js releases from the official
    source, then work out the three latest identifiers. *)
Definition preloadNodeVersions : Command unit :=
  andThen (await preloadNodeSchedule) (fun _ =>
  andThen (await preloadNodeReleases) (fun _ =>
  andThen (assign (set_preloaded true)) (fun _ =>
  let nodeVersionsList := getNodeScheduleIdentifiers in
  andThen
    (reading (fun s =>
                filterM (fun version : NodeScheduleIdentifier =>
                           isNodeVersionCurrent s version) nodeVersionsList))
    (fun current =>
  andThen (assign (set_latestCurrent (last current))) (fun _ =>
  andThen
    (reading (fun s =>
                filterM (fun version : NodeScheduleIdentifier =>
                           isNodeVersionActive s version) nodeVersionsList))
    (fun active =>
  andThen (assign (set_latestActive (last active))) (fun _ =>
  andThen
    (reading (fun s =>
                filterM (fun version : NodeScheduleIdentifier =>
                           isNodeVersionMaintenance s version)
                  nodeVersionsList))
    (fun maintenance =>
  assign (set_latestMaintenance (last maintenance)))))))))).

End Versions.

(** The predecessor of [source/index.ts], driven by a single combined
    dataset; only its vercel predicate is needed here. *)
Module Legacy.
Section Legacy.
Context `{Collaborators}.

(** Is the node version compatible with vercel? *)
Definition isNodeVersionVercel (version : NodeVersionInput) : bool :=
  (versionCompare version "10" =? 0) || (versionCompare version "12" =? 0).
End Legacy.
End Legacy.

(** ** A comparator and a sample of the repositories, to run the code *)

(** [Number(part)] for the parts of a version: a run of decimal digits is
    that number, the empty string is [0], anything else is [NaN] ([None]). *)
Definition digit (c : ascii) : option N :=
  let n := N_of_ascii c in
  if ((48 <=? n) && (n <=? 57))%N then Some (n - 48)%N else None.

Fixpoint digits (s : string) (acc : N) : option N :=
  match s with
  | EmptyString => Some acc
  | String c rest =>
      match digit c with
      | Some d => digits rest (10 * acc + d)%N
      | None => None
      end
  end.

Definition Number (s : string) : option N := digits s 0%N.

(** Modelled from the spec: the Version Comparator of section 4.1 (the
    package [version-compare], an external collaborator): numeric,
    component by component over the components both operands have, so that
    a line identifier compares equal to each of its absolute releases. *)
Fixpoint compareParts (cp op : list string) : Z :=
  match cp, op with
  | c :: cp', o :: op' =>
      match Number c, Number o with
      | Some cn, Some on =>
          if (on <? cn)%N then 1
          else if (cn <? on)%N then -1
          else compareParts cp' op'
      | Some _, None => 1
      | None, Some _ => -1
      | None, None => compareParts cp' op'
      end
  | _, _ => 0
  end.

Definition versionCompareModel (current other : NodeVersionInput) : Z :=
  compareParts (split_dot (String_of current)) (split_dot (String_of other)).

(** The instant of midnight UTC on a calendar day, as
    [new Date('yyyy-mm-dd').getTime()] gives it. *)
Definition utc (y m d : Z) : Instant :=
  let y' := if m <=? 2 then y - 1 else y in
  let era := y' / 400 in
  let yoe := y' - era * 400 in
  let doy := (153 * (if m >? 2 then m - 3 else m + 9) + 2) / 5 + d - 1 in
  let doe := yoe * 365 + yoe / 4 - yoe / 100 + doy in
  (era * 146097 + doe - 719468) * 86400000.

Module Sample.

(** Some lines of the published release schedule, oldest first. *)
Definition schedule : list Schedule.t :=
  [ Schedule.Build "0.8" (utc 2012 6 25) (utc 2014 7 31) None None None;
    Schedule.Build "0.10" (utc 2013 3 11) (utc 2016 10 31) None None None;
    Schedule.Build "0.12" (utc 2015 2 6) (utc 2016 12 31) None None None;
    Schedule.Build "4" (utc 2015 9 8) (utc 2018 4 30)
      (Some (utc 2015 10 12)) (Some (utc 2017 4 1)) (Some "Argon");
    Schedule.Build "10" (utc 2018 4 24) (utc 2021 4 30)
      (Some (utc 2018 10 30)) (Some (utc 2020 5 19)) (Some "Dubnium");
    Schedule.Build "12" (utc 2019 4 23) (utc 2022 4 30)
      (Some (utc 2019 10 21)) (Some (utc 2020 11 30)) (Some "Erbium");
    Schedule.Build "13" (utc 2019 10 22) (utc 2020 6 1)
      None (Some (utc 2020 4 1)) None;
    Schedule.Build "14" (utc 2020 4 21) (utc 2023 4 30)
      (Some (utc 2020 10 27)) (Some (utc 2021 10 19)) (Some "Fermium");
    Schedule.Build "15" (utc 2020 10 20) (utc 2021 6 1)
      None (Some (utc 2021 4 1)) None;
    Schedule.Build "16" (utc 2021 4 20) (utc 2024 4 30)
      (Some (utc 2021 10 26)) (Some (utc 2022 10 18)) None ].

(** Some absolute releases. *)
Definition releases : list (NodeVersionIdentifier * Release.t) :=
  [ ("0.10.5", Release.Build (utc 2013 4 23) None);
    ("4.0.0", Release.Build (utc 2015 9 8) None);
    ("4.2.0", Release.Build (utc 2015 10 12) (Some "Argon"));
    ("10.0.0", Release.Build (utc 2018 4 24) None);
    ("10.13.0", Release.Build (utc 2018 10 30) (Some "Dubnium"));
    ("14.15.0", Release.Build (utc 2020 10 27) (Some "Fermium"));
    ("15.0.0", Release.Build (utc 2020 10 20) None) ].

(** The schedule repository answers for a line and for the absolute
    releases of that line; anything else is a lookup miss. *)
Definition scheduleOf (lines : list Schedule.t) (version : NodeScheduleInput)
  : result Schedule.t :=
  match
    find (fun meta => versionCompareModel version (Schedule.version meta) =? 0)
      lines
  with
  | Some meta => Ok meta
  | None => Throw "Unable to find the schedule information in the cache."
  end.

Definition releaseOf (entries : list (NodeVersionIdentifier * Release.t))
  (version : NodeReleaseInput) : result Release.t :=
  match
    find (fun entry => String.eqb (String_of version) (fst entry)) entries
  with
  | Some entry => Ok (snd entry)
  | None => Throw "Unable to find the release information in the cache."
  end.

(** Repositories holding [lines] and [entries], whose preloads succeed. *)
Definition repositories (lines : list Schedule.t)
  (entries : list (NodeVersionIdentifier * Release.t)) : Collaborators :=
  {| versionCompare := versionCompareModel;
     withinRange := fun _ _ => true; (* no range is evaluated below *)
     preloadNodeSchedule := Ok tt;
     preloadNodeReleases := Ok tt;
     getNodeScheduleIdentifiers := map Schedule.version lines;
     getNodeScheduleInformation := scheduleOf lines;
     getNodeReleaseIdentifiers := map fst entries;
     getNodeReleaseInformation := releaseOf entries |}.

Definition published : Collaborators := repositories schedule releases.

(** The same lines listed newest first. *)
Definition reversed : Collaborators := repositories (rev schedule) releases.

(** The configurations [{ esm: true }], [{ esm: false }],
    [{ active: true }] and [{ latestActive: true }]. *)
Definition esmOnly : Filters.t :=
  Filters.Build None None None None None None None None (Some true) None
    None None None None None None None None.

Definition esmOff : Filters.t :=
  Filters.Build None None None None None None None None (Some false) None
    None None None None None None None None.

Definition activeOnly : Filters.t :=
  Filters.Build None None None None None (Some true) None None None None
    None None None None None None None None.

Definition latestActiveOnly : Filters.t :=
  Filters.Build None None None None None None None None None (Some true)
    None None None None None None None None.

(** The module state after a preload at instant [t]. *)
Definition preloadedAt (C : Collaborators) (t : Instant) : State :=
  snd (@preloadNodeVersions C (initial t)).

End Sample.

(** * Vocabulary of the properties *)

(** The call returned [true]. *)
Definition holds (r : result bool) : bool :=
  match r with
  | Ok true => true
  | _ => false
  end.

(** Exactly one of three booleans. *)
Definition exactlyOne (a b c : bool) : bool :=
  match a, b, c with
  | true, false, false => true
  | false, true, false => true
  | false, false, true => true
  | _, _, _ => false
  end.

(** A run of [unless_fails] lines over a table of tests, each with the
    flag that selects it. *)
Definition checks (table : list (bool * result bool)) : result bool :=
  fold_right (fun line rest => unless_fails (fst line) (snd line) rest)
    (Ok true) table.

(** The lines of two configurations side by side: the flag of each, and
    the test they share. *)
Definition Line : Type := (bool * bool * result bool)%type.

Definition left_line (l : Line) : bool * result bool :=
  (fst (fst l), snd l).
Definition right_line (l : Line) : bool * result bool :=
  (snd (fst l), snd l).
Definition both_line (l : Line) : bool * result bool :=
  (fst (fst l) || snd (fst l), snd l).

Section Vocabulary.

Context `{Collaborators}.

(** The inputs the safe lookup answers by itself. *)
Definition untracked (version : NodeScheduleInput) : Prop :=
  versionCompare version "0.8" = -1
  \/ versionCompare version "0.9" = 0
  \/ versionCompare version "0.11" = 0.

(** What a release entry must say for an absolute identifier to count as
    LTS: a string label. *)
Definition labelled (version : NodeVersionInput) : Prop :=
  exists info label,
    getNodeReleaseInformation version = Ok info
    /\ Release.lts info = Some label.

(** The classifiers read the module state only through [preloaded] and
    [now]. *)
Definition same_view (s1 s2 : State) : Prop :=
  preloaded s1 = preloaded s2 /\ now s1 = now s2.

(** The states the module goes through before any preload gets past its
    two fetches: the initial one, and what [datetime] and a preload whose
    fetch fails make of such a state. *)
Inductive before_preload : State -> Prop :=
| at_load (t0 : Instant) : before_preload (initial t0)
| after_datetime (when : option Instant) (s : State) :
    before_preload s -> before_preload (snd (datetime when s))
| after_failed_fetch (s : State) (e : Error) :
    before_preload s ->
    preloadNodeSchedule = Throw e
    \/ (preloadNodeSchedule = Ok tt /\ preloadNodeReleases = Throw e) ->
    before_preload (snd (preloadNodeVersions s)).

(** Exactly one of Current, Active and Maintenance holds of [v]. *)
Definition exactly_one_phase (s : State) (v : NodeVersionInput) : Prop :=
  exists c a t,
    isNodeVersionCurrent s v = Ok c
    /\ isNodeVersionActive s v = Ok a
    /\ isNodeVersionMaintenance s v = Ok t
    /\ exactlyOne c a t = true.

(** The historical-line rule on the schedule side: the safe lookup gives
    an entry with an lts date or without a maintenance date. *)
Definition lts_entry (version : NodeVersionInput) : Prop :=
  exists meta,
    getNodeScheduleInformationSafe version = Ok (Some meta)
    /\ (Schedule.lts meta <> None \/ Schedule.maintenance meta = None).

(** When a version is LTS as the specification words it, with the first
    tracked line 0.8 as the threshold for absolute identifiers. *)
Definition lts_as_specified (version : NodeVersionInput) : Prop :=
  lts_entry version
  /\ (isAbsoluteVersion version = true ->
      versionCompare version "0.8" >= 0 ->
      labelled version).

(** The schedule half of [isNodeVersionLTS]. *)
Definition lts_of_schedule (version : NodeVersionInput) : result bool :=
  meta <- getNodeScheduleInformationSafe version ;;
  match meta with
  | None => Ok false
  | Some meta => Ok (lts_or_historical meta)
  end.

(** The boolean part of [isNodeVersion] for two configurations, line by
    line in the order of the source. *)
Definition lines (s : State) (v : NodeVersionInput) (a b : Filters.t)
  : list Line :=
  let line (key : Filters.t -> option bool) (test : result bool) : Line :=
    (truthy_flag (key a), truthy_flag (key b), test) in
  [ line Filters.active (isNodeVersionActive s v);
    line Filters.activeOrCurrent (isNodeVersionActiveOrCurrent s v);
    line Filters.current (isNodeVersionCurrent s v);
    line Filters.esm (Ok (isNodeVersionESM v));
    line Filters.latestActive (isNodeVersionLatestActive s v);
    line Filters.latestCurrent (isNodeVersionLatestCurrent s v);
    line Filters.latestMaintenance (isNodeVersionLatestMaintenance s v);
    line Filters.lts (isNodeVersionLTS s v);
    line Filters.maintained (isNodeVersionMaintained s v);
    line Filters.maintainedOrLTS (isNodeVersionMaintainedOrLTS s v);
    line Filters.maintenance (isNodeVersionMaintenance s v);
    line Filters.released (isNodeVersionReleased s v);
    line Filters.vercel (Ok (isNodeVersionVercel v)) ].

(** Filtering by [a], then the result by [b]. *)
Definition filterTwice (s : State) (versions : list NodeVersionIdentifier)
  (a b : Filters.t) : result (list NodeVersionIdentifier) :=
  once <- filterNodeVersions s versions a ;;
  filterNodeVersions s once b.

End Vocabulary.

(** The sample repositories after a preload. *)
Module Runs.

Import Sample.

(** The state a preload leaves on 3 November 2020, the clock of the
    repository's own tests. *)
Definition tested : State :=
  mkState true (Some "15") (Some "14") (Some "10") (utc 2020 11 3).

(** The state a preload leaves on 1 March 2015, before any line had an
    lts date. *)
Definition early : State :=
  mkState true (Some "0.12") None None (utc 2015 3 1).

(** The state a preload leaves on 27 October 2020, the lts date of line
    14. *)
Definition onLtsDate : State := preloadedAt published (utc 2020 10 27).

(** The state a preload leaves on 19 October 2021, the maintenance date
    of line 14. *)
Definition onMaintenanceDate : State :=
  preloadedAt published (utc 2021 10 19).

Definition line14 : Schedule.t :=
  Schedule.Build "14" (utc 2020 4 21) (utc 2023 4 30)
    (Some (utc 2020 10 27)) (Some (utc 2021 10 19)) (Some "Fermium").

Definition line13 : Schedule.t :=
  Schedule.Build "13" (utc 2019 10 22) (utc 2020 6 1)
    None (Some (utc 2020 4 1)) None.

Definition line0_10 : Schedule.t :=
  Schedule.Build "0.10" (utc 2013 3 11) (utc 2016 10 31) None None None.

End Runs.

(** A call on concrete data returns: run it. *)
Ltac returns_by_computation :=
  match goal with
  | |- returns ?r =>
      let v := eval vm_compute in r in
      match v with
      | Ok ?a => exists a; vm_compute; reflexivity
      end
  end.

(** * The rest of the interface *)

(** The keys of the status record, which are the boolean keys of the
    filters. *)
Module Flag.
Inductive t : Type :=
| active | activeOrCurrent | current | esm
| latestActive | latestCurrent | latestMaintenance
| lts | maintained | maintainedOrLTS | maintenance | released | vercel.
End Flag.

(** What [getNodeVersionStatus] returns. *)
Module Status.
Record t : Type := Build {
  active : bool;
  activeOrCurrent : bool;
  current : bool;
  esm : bool;
  latestActive : bool;
  latestCurrent : bool;
  latestMaintenance : bool;
  lts : bool;
  maintained : bool;
  maintainedOrLTS : bool;
  maintenance : bool;
  released : bool;
  vercel : bool
}.

(** [status[flag]]. *)
Definition get (flag : Flag.t) (status : t) : bool :=
  match flag with
  | Flag.active => active status
  | Flag.activeOrCurrent => activeOrCurrent status
  | Flag.current => current status
  | Flag.esm => esm status
  | Flag.latestActive => latestActive status
  | Flag.latestCurrent => latestCurrent status
  | Flag.latestMaintenance => latestMaintenance status
  | Flag.lts => lts status
  | Flag.maintained => maintained status
  | Flag.maintainedOrLTS => maintainedOrLTS status
  | Flag.maintenance => maintenance status
  | Flag.released => released status
  | Flag.vercel => vercel status
  end.
End Status.

(** The configuration [{}]. *)
Definition no_filters : Filters.t :=
  Filters.Build None None None None None None None None None None None None
    None None None None None None.

(** The configuration [{ [flag]: value }]. *)
Definition only (flag : Flag.t) (value : bool) : Filters.t :=
  let key (k : Flag.t) : option bool :=
    match flag, k with
    | Flag.active, Flag.active
    | Flag.activeOrCurrent, Flag.activeOrCurrent
    | Flag.current, Flag.current
    | Flag.esm, Flag.esm
    | Flag.latestActive, Flag.latestActive
    | Flag.latestCurrent, Flag.latestCurrent
    | Flag.latestMaintenance, Flag.latestMaintenance
    | Flag.lts, Flag.lts
    | Flag.maintained, Flag.maintained
    | Flag.maintainedOrLTS, Flag.maintainedOrLTS
    | Flag.maintenance, Flag.maintenance
    | Flag.released, Flag.released
    | Flag.vercel, Flag.vercel => Some value
    | _, _ => None
    end in
  Filters.Build None None None None None
    (key Flag.active) (key Flag.activeOrCurrent) (key Flag.current)
    (key Flag.esm) (key Flag.latestActive) (key Flag.latestCurrent)
    (key Flag.latestMaintenance) (key Flag.lts) (key Flag.maintained)
    (key Flag.maintainedOrLTS) (key Flag.maintenance) (key Flag.released)
    (key Flag.vercel).

(** A configuration without its parametric keys. *)
Definition boolean_part (f : Filters.t) : Filters.t :=
  Filters.Build None None None None None
    (Filters.active f) (Filters.activeOrCurrent f) (Filters.current f)
    (Filters.esm f) (Filters.latestActive f) (Filters.latestCurrent f)
    (Filters.latestMaintenance f) (Filters.lts f) (Filters.maintained f)
    (Filters.maintainedOrLTS f) (Filters.maintenance f) (Filters.released f)
    (Filters.vercel f).

(** [{ ...f, between: tuple }] and [{ ...f, gte, lte }]. *)
Definition with_between (tuple : NodeVersionInput * NodeVersionInput)
  (f : Filters.t) : Filters.t :=
  Filters.Build (Filters.these f) (Some tuple) (Filters.lte f) (Filters.gte f)
    (Filters.range f)
    (Filters.active f) (Filters.activeOrCurrent f) (Filters.current f)
    (Filters.esm f) (Filters.latestActive f) (Filters.latestCurrent f)
    (Filters.latestMaintenance f) (Filters.lts f) (Filters.maintained f)
    (Filters.maintainedOrLTS f) (Filters.maintenance f) (Filters.released f)
    (Filters.vercel f).

Definition with_bounds (gte lte : NodeVersionInput) (f : Filters.t)
  : Filters.t :=
  Filters.Build (Filters.these f) (Filters.between f) (Some lte) (Some gte)
    (Filters.range f)
    (Filters.active f) (Filters.activeOrCurrent f) (Filters.current f)
    (Filters.esm f) (Filters.latestActive f) (Filters.latestCurrent f)
    (Filters.latestMaintenance f) (Filters.lts f) (Filters.maintained f)
    (Filters.maintainedOrLTS f) (Filters.maintenance f) (Filters.released f)
    (Filters.vercel f).

(** Truthiness of an optional key that holds a string, or a version. *)
Definition truthy_text (o : option string) : bool :=
  match o with
  | Some s => truthy_string s
  | None => false
  end.

Definition truthy_seek (o : option NodeVersionInput) : bool :=
  match o with
  | Some seek => truthy_input seek
  | None => false
  end.

(** No key of the configuration is truthy: each is absent, [false], the
    empty string, the number zero or [NaN]. *)
Definition all_falsy (f : Filters.t) : Prop :=
  Filters.these f = None /\ Filters.between f = None
  /\ truthy_seek (Filters.lte f) = false
  /\ truthy_seek (Filters.gte f) = false
  /\ truthy_text (Filters.range f) = false
  /\ forall flag : Filters.t -> option bool,
       In flag [ Filters.active; Filters.activeOrCurrent; Filters.current;
                 Filters.esm; Filters.latestActive; Filters.latestCurrent;
                 Filters.latestMaintenance; Filters.lts; Filters.maintained;
                 Filters.maintainedOrLTS; Filters.maintenance;
                 Filters.released; Filters.vercel ] ->
       truthy_flag (flag f) = false.

(** The number of dots of a string, and [Array.prototype.join('.')]. *)
Fixpoint dots (s : string) : nat :=
  match s with
  | EmptyString => 0
  | String c rest =>
      if Ascii.eqb c "."%char then S (dots rest) else dots rest
  end.

Fixpoint join_dot (parts : list string) : string :=
  match parts with
  | [] => EmptyString
  | [part] => part
  | part :: rest => (part ++ String "."%char (join_dot rest))%string
  end.

(** The dates of an entry come in the order of the phases: start, lts,
    maintenance, end, as far as they are present. *)
Definition in_order (meta : Schedule.t) : Prop :=
  match Schedule.lts meta, Schedule.maintenance meta with
  | Some l, Some m =>
      Schedule.start meta <= l /\ l <= m /\ m <= Schedule.end_ meta
  | Some l, None => Schedule.start meta <= l /\ l <= Schedule.end_ meta
  | None, Some m => Schedule.start meta <= m /\ m <= Schedule.end_ meta
  | None, None => Schedule.start meta <= Schedule.end_ meta
  end.

Section Interface.

Context `{Collaborators}.

(** Get the status of the node version?  The properties of the object
    literal are evaluated in their order, so the first predicate to throw
    decides the exception. *)
Definition getNodeVersionStatus (s : State) (version : NodeVersionInput)
  : result Status.t :=
  active <- isNodeVersionActive s version ;;
  activeOrCurrent <- isNodeVersionActiveOrCurrent s version ;;
  current <- isNodeVersionCurrent s version ;;
  esm <- Ok (isNodeVersionESM version) ;;
  latestActive <- isNodeVersionLatestActive s version ;;
  latestCurrent <- isNodeVersionLatestCurrent s version ;;
  latestMaintenance <- isNodeVersionLatestMaintenance s version ;;
  lts <- isNodeVersionLTS s version ;;
  maintained <- isNodeVersionMaintained s version ;;
  maintainedOrLTS <- isNodeVersionMaintainedOrLTS s version ;;
  maintenance <- isNodeVersionMaintenance s version ;;
  released <- isNodeVersionReleased s version ;;
  vercel <- Ok (isNodeVersionVercel version) ;;
  Ok (Status.Build active activeOrCurrent current esm latestActive
        latestCurrent latestMaintenance lts maintained maintainedOrLTS
        maintenance released vercel).

(** The verdict of the parametric keys of a configuration: every key that
    is present and truthy passes its test. *)
Definition parametric (version : NodeVersionInput) (f : Filters.t) : bool :=
  match Filters.these f with
  | Some these => isNodeVersionThese version these
  | None => true
  end
  && match Filters.between f with
     | Some tuple => isNodeVersionBetween version tuple
     | None => true
     end
  && match Filters.lte f with
     | Some seek => negb (truthy_input seek) || isNodeVersionLTE version seek
     | None => true
     end
  && match Filters.gte f with
     | Some seek => negb (truthy_input seek) || isNodeVersionGTE version seek
     | None => true
     end
  && match Filters.range f with
     | Some range =>
         negb (truthy_string range) || isNodeVersionWithinRange version range
     | None => true
     end.

End Interface.

(** * The single-dataset implementation

    The predecessor of [source/index.ts] keeps the schedule in a [Map] of
    its own, filled by [fetchNodeVersions].  Its predicates have no
    [preloaded] guard and no safe lookup: they read the map through
    [getNodeVersion], which throws on a miss. *)

(** What the platform provides: [JSON.stringify] on a version input and
    [new Date(text).getTime()]. *)
Class Platform : Type := {
  JSON_stringify : NodeVersionInput -> string;
  newDate : string -> Instant
}.

Module SingleDataset.

(** A version number in desired string format. *)
Abbreviation Key := string (only parsing).

(** One value of the response of the schedule's source. *)
Record Raw : Type := mkRaw {
  start : string;
  end_ : string;
  lts : option string;
  maintenance : option string;
  codename : option string
}.

(** A [Map<Key, Meta>]: the entries in the order of their first insertion,
    each key once. *)
Definition Map := list (Key * Schedule.t).

Fixpoint get (key : Key) (m : Map) : option Schedule.t :=
  match m with
  | [] => None
  | (k, meta) :: rest => if String.eqb k key then Some meta else get key rest
  end.

(** [Map.prototype.set]: the value of a key that is there is replaced
    where it stands, a new key goes to the end. *)
Fixpoint set (key : Key) (meta : Schedule.t) (m : Map) : Map :=
  match m with
  | [] => [(key, meta)]
  | (k, old) :: rest =>
      if String.eqb k key then (k, meta) :: rest
      else (k, old) :: set key meta rest
  end.

Definition keys (m : Map) : list Key := map fst m.

(** What the cache keeps true: each key once, and under a key an entry of
    that version. *)
Definition sound (m : Map) : Prop :=
  NoDup (keys m)
  /\ forall key meta, get key m = Some meta -> Schedule.version meta = key.

(** [key.replace('v', '')]: the first [v] of the string goes. *)
Fixpoint replace_v (key : string) : string :=
  match key with
  | EmptyString => EmptyString
  | String c rest =>
      if Ascii.eqb c "v"%char then rest else String c (replace_v rest)
  end.

(** The module variables. *)
Record State : Type := mkState {
  nodeVersionsMap : Map;
  nodeVersionsList : list Key;
  nodeVersionLatestCurrent : option Key;
  nodeVersionLatestActive : option Key;
  nodeVersionLatestMaintenance : option Key;
  now : Instant
}.

Definition initial (t0 : Instant) : State := mkState [] [] None None None t0.

(** The error [fetchNodeVersions] wraps every failure in. *)
Definition failed : Error :=
  "Failed to fetch Node.js release schedule from https://raw.githubusercontent.com/nodejs/Release/master/schedule.json".

Section Implementation.

Context `{Collaborators} `{Platform}.

(** Get or set the datetime that is compared against the times specified
    in the version metadata. *)
Definition datetime (when : option Instant) (s : State) : Instant * State :=
  match when with
  | Some t =>
      (t, mkState (nodeVersionsMap s) (nodeVersionsList s)
            (nodeVersionLatestCurrent s) (nodeVersionLatestActive s)
            (nodeVersionLatestMaintenance s) t)
  | None => (now s, s)
  end.

(** Get the release metadata for the version number. *)
Definition getNodeVersion (s : State) (version : NodeVersionInput)
  : result Schedule.t :=
  match get (String_of version) (nodeVersionsMap s) with
  | Some meta => Ok meta
  | None =>
      if negb (List.length (nodeVersionsMap s) =? 0)%nat
      then Throw ("Unable to get the Node.js version ["
                  ++ JSON_stringify version
                  ++ "] probably because the Node.js versions have not been fetched yet.")%string
      else Throw ("Unable to find the Node.js version in the cache: "
                  ++ JSON_stringify version)%string
  end.

(** Is the version an active LTS release? *)
Definition isNodeVersionActive (s : State) (version : NodeVersionInput)
  : result bool :=
  meta <- getNodeVersion s version ;;
  let start := Schedule.lts meta in
  let end_ :=
    or_date (Schedule.maintenance meta) (Some (Schedule.end_ meta)) in
  Ok (window start end_ (now s)).

(** Is the version a active or current release? *)
Definition isNodeVersionActiveOrCurrent (s : State)
  (version : NodeVersionInput) : result bool :=
  meta <- getNodeVersion s version ;;
  let start := Some (Schedule.start meta) in
  let end_ :=
    or_date (Schedule.maintenance meta) (Some (Schedule.end_ meta)) in
  Ok (window start end_ (now s)).

(** Has the version existed at some point? *)
Definition isNodeVersionReleased (s : State) (version : NodeVersionInput)
  : result bool :=
  meta <- getNodeVersion s version ;;
  let start := Schedule.start meta in
  Ok (now s >=? start).

(** Is the version a current release? *)
Definition isNodeVersionCurrent (s : State) (version : NodeVersionInput)
  : result bool :=
  meta <- getNodeVersion s version ;;
  let start := Some (Schedule.start meta) in
  let end_ :=
    or_date (Schedule.lts meta)
      (or_date (Schedule.maintenance meta) (Some (Schedule.end_ meta))) in
  Ok (window start end_ (now s)).

(** Does the version natively support ESM? *)
Definition isNodeVersionESM (version : NodeVersionInput) : bool :=
  versionCompare version "12" >=? 0.

(** Is the version a LTS release?  Tolerates unreleased versions. *)
Definition isNodeVersionLTS (s : State) (version : NodeVersionInput)
  : result bool :=
  meta <- getNodeVersion s version ;;
  Ok (lts_or_historical meta).

(** Is the version currently maintained? *)
Definition isNodeVersionMaintained (s : State) (version : NodeVersionInput)
  : result bool :=
  meta <- getNodeVersion s version ;;
  let start := Some (Schedule.start meta) in
  let end_ := Some (Schedule.end_ meta) in
  Ok (window start end_ (now s)).

(** Is the version a maintained release or a historical LTS release? *)
Definition isNodeVersionMaintainedOrLTS (s : State)
  (version : NodeVersionInput) : result bool :=
  meta <- getNodeVersion s version ;;
  let start := Schedule.start meta in
  let end_ := Schedule.end_ meta in
  let released := now s >=? start in
  if negb released then Ok false
  else
    let maintained := now s <=? end_ in
    if maintained then Ok true
    else Ok (lts_or_historical meta).

(** Is the version a maintenance release? *)
Definition isNodeVersionMaintenance (s : State) (version : NodeVersionInput)
  : result bool :=
  meta <- getNodeVersion s version ;;
  let start := Schedule.maintenance meta in
  let end_ := Some (Schedule.end_ meta) in
  Ok (window start end_ (now s)).

(** The entry the loop of [fetchNodeVersions] makes of one entry of the
    response. *)
Definition entry_of (version : Key) (meta : Raw) : Schedule.t :=
  let start := newDate (start meta) in
  let end_ := newDate (end_ meta) in
  let maintenance :=
    match maintenance meta with
    | Some text => if truthy_string text then Some (newDate text) else None
    | None => None
    end in
  let lts :=
    match lts meta with
    | Some text => if truthy_string text then Some (newDate text) else None
    | None => None
    end in
  Schedule.Build version start end_ lts maintenance (codename meta).

(** The loop over [Object.entries(json)]. *)
Definition populate (entries : list (string * Raw)) (m : Map) : Map :=
  fold_left
    (fun m entry =>
       let version := replace_v (fst entry) in
       set version (entry_of version (snd entry)) m)
    entries m.

(** Fetch the metadata for the various Node.js releases from the official
    source.  [fetched] is what the retrieval gives: the entries of the
    parsed response in their order, or its failure.  Whatever is thrown
    after the cache check is wrapped into the one error [failed]. *)
Definition fetchNodeVersions (fetched : result (list (string * Raw)))
  (s : State) : result (list Key) * State :=
  if negb (List.length (nodeVersionsMap s) =? 0)%nat
  then (Ok (nodeVersionsList s), s)
  else
    match fetched with
    | Throw _ => (Throw failed, s)
    | Ok json =>
        let m := populate json (nodeVersionsMap s) in
        let l := nodeVersionsList s ++ keys m in
        let s1 :=
          mkState m l (nodeVersionLatestCurrent s)
            (nodeVersionLatestActive s) (nodeVersionLatestMaintenance s)
            (now s) in
        match filterM (fun key : Key => isNodeVersionCurrent s1 key) l with
        | Throw _ => (Throw failed, s1)
        | Ok current =>
            let s2 :=
              mkState m l (last current) (nodeVersionLatestActive s)
                (nodeVersionLatestMaintenance s) (now s) in
            match filterM (fun key : Key => isNodeVersionActive s2 key) l with
            | Throw _ => (Throw failed, s2)
            | Ok active =>
                let s3 :=
                  mkState m l (last current) (last active)
                    (nodeVersionLatestMaintenance s) (now s) in
                match
                  filterM (fun key : Key => isNodeVersionMaintenance s3 key) l
                with
                | Throw _ => (Throw failed, s3)
                | Ok maintenance =>
                    (Ok l,
                     mkState m l (last current) (last active)
                       (last maintenance) (now s))
                end
            end
        end
    end.

End Implementation.

End SingleDataset.

Module SampleResponse.

(** A platform for the sample: strings without characters to escape,
    numbers printed as [String()] prints them when they are finite and as
    [null] otherwise, and dates written [yyyy-mm-dd]. *)
Definition quote : string := String (ascii_of_nat 34) EmptyString.

Definition number (text : string) : Z :=
  match Number text with
  | Some n => Z.of_N n
  | None => 0
  end.

Definition platform : Platform :=
  {| JSON_stringify := fun version =>
       match version with
       | Text text => (quote ++ text ++ quote)%string
       | Numeral printed =>
           if String.eqb printed "NaN" || String.eqb printed "Infinity"
              || String.eqb printed "-Infinity"
           then "null" else printed
       end;
     newDate := fun text =>
       utc (number (substring 0 4 text)) (number (substring 5 2 text))
         (number (substring 8 2 text)) |}.

(** Some entries of the published response, in its order. *)
Definition response : list (string * SingleDataset.Raw) :=
  [ ("v0.10", SingleDataset.mkRaw "2013-03-11" "2016-10-31" None None None);
    ("v10", SingleDataset.mkRaw "2018-04-24" "2021-04-30"
              (Some "2018-10-30") (Some "2020-05-19") (Some "Dubnium"));
    ("v13", SingleDataset.mkRaw "2019-10-22" "2020-06-01"
              None (Some "2020-04-01") None);
    ("v14", SingleDataset.mkRaw "2020-04-21" "2023-04-30"
              (Some "2020-10-27") (Some "2021-10-19") (Some "Fermium"));
    ("v15", SingleDataset.mkRaw "2020-10-20" "2021-06-01"
              None (Some "2021-04-01") None) ].

(** The module state after the first fetch of the response on 3 November
    2020. *)
Definition fetched : SingleDataset.State :=
  snd (@SingleDataset.fetchNodeVersions platform
         (Ok response) (SingleDataset.initial (utc 2020 11 3))).

End SampleResponse.

(** Ruling out the outcomes of a lookup that a predicate which returned
    [true] cannot have had. *)
Ltac known_entry H :=
  match type of H with
  | context [ preloaded ?s ] =>
      destruct (preloaded s) eqn:?; simpl in H; [ | discriminate H ]
  end;
  match type of H with
  | context [ @getNodeScheduleInformationSafe ?C ?v ] =>
      destruct (@getNodeScheduleInformationSafe C v) as [[?meta | ] | ?e] eqn:?;
      simpl in H; try discriminate H
  end.


(** Comparisons of concrete instants, and other closed facts: compute. *)
Ltac by_computation :=
  vm_compute;
  repeat match goal with
         | |- _ /\ _ => split
         end;
  first [ reflexivity | discriminate | intro; discriminate ].

(** * Properties *)

Section SafeLookup.

Context `{Collaborators}.

Lemma untracked_guard (version : NodeScheduleInput) :
  untracked version <->
  (versionCompare version "0.8" =? -1)
  || (versionCompare version "0.9" =? 0)
  || (versionCompare version "0.11" =? 0) = true.
Proof.
  unfold untracked.
  rewrite !orb_true_iff, !Z.eqb_eq. tauto.
Qed.

Lemma safe_untracked (version : NodeScheduleInput) :
  untracked version -> getNodeScheduleInformationSafe version = Ok None.
Proof.
  intros Hu. apply untracked_guard in Hu.
  unfold getNodeScheduleInformationSafe. now rewrite Hu.
Qed.

Lemma safe_tracked (version : NodeScheduleInput) :
  ~ untracked version ->
  getNodeScheduleInformationSafe version =
  (info <- getNodeScheduleInformation version ;; Ok (Some info)).
Proof.
  intros Hu. rewrite untracked_guard in Hu.
  apply not_true_is_false in Hu.
  unfold getNodeScheduleInformationSafe. now rewrite Hu.
Qed.

End SafeLookup.

(** C8.  For an input that compares less than 0.8, or equal to 0.9 or to
    0.11, the safe lookup returns the not-found sentinel, whatever the
    schedule repository is (also one whose lookup throws): the repository
    is not consulted and nothing is thrown.  For every other input the
    outcome is the outcome of the repository's lookup: its entry when it
    returns one. *)
Theorem getNodeScheduleInformationSafe_sentinel
  (C : Collaborators) (version : NodeScheduleInput) :
  (untracked version ->
   forall C' : Collaborators,
     @versionCompare C' = @versionCompare C ->
     @getNodeScheduleInformationSafe C' version = Ok None)
  /\ (~ untracked version ->
      (forall info, getNodeScheduleInformation version = Ok info ->
                    getNodeScheduleInformationSafe version = Ok (Some info))
      /\ (forall e, getNodeScheduleInformation version = Throw e ->
                    getNodeScheduleInformationSafe version = Throw e)).
Proof.
  split.
  - intros Hu C' Hcmp.
    apply (@safe_untracked C').
    unfold untracked in *. now rewrite Hcmp.
  - intros Hu. split; intros x Hx; rewrite (safe_tracked _ Hu), Hx; reflexivity.
Qed.

Lemma getNodeScheduleInformationSafe_sentinel_witness :
  @getNodeScheduleInformationSafe (Sample.repositories [] []) "0.9" = Ok None
  /\ exists info,
       @getNodeScheduleInformationSafe Sample.published "10" = Ok (Some info).
Proof.
  split.
  - apply (proj1 (getNodeScheduleInformationSafe_sentinel Sample.published "0.9")).
    + right; left; reflexivity.
    + reflexivity.
  - eexists.
    apply (proj2 (getNodeScheduleInformationSafe_sentinel Sample.published "10")).
    + intros [Hu | [Hu | Hu]]; vm_compute in Hu; discriminate Hu.
    + reflexivity.
Defined.

Section Classifier.

Context `{Collaborators}.

Lemma isNodeVersionCurrent_view s1 s2 v :
  same_view s1 s2 -> isNodeVersionCurrent s1 v = isNodeVersionCurrent s2 v.
Proof.
  intros [Hp Hn]. unfold isNodeVersionCurrent. now rewrite Hp, Hn.
Qed.

Lemma isNodeVersionActive_view s1 s2 v :
  same_view s1 s2 -> isNodeVersionActive s1 v = isNodeVersionActive s2 v.
Proof.
  intros [Hp Hn]. unfold isNodeVersionActive. now rewrite Hp, Hn.
Qed.

Lemma isNodeVersionMaintenance_view s1 s2 v :
  same_view s1 s2 ->
  isNodeVersionMaintenance s1 v = isNodeVersionMaintenance s2 v.
Proof.
  intros [Hp Hn]. unfold isNodeVersionMaintenance. now rewrite Hp, Hn.
Qed.

(** The three phase predicates on an identifier whose lookups succeed. *)
Lemma isNodeVersionCurrent_known s v meta :
  preloaded s = true ->
  getNodeScheduleInformationSafe v = Ok (Some meta) ->
  isNodeVersionCurrent s v =
  Ok (window (Some (Schedule.start meta))
        (or_date (Schedule.lts meta)
           (or_date (Schedule.maintenance meta) (Some (Schedule.end_ meta))))
        (now s)).
Proof.
  intros Hp Hm. unfold isNodeVersionCurrent. now rewrite Hp, Hm.
Qed.

Lemma isNodeVersionMaintenance_known s v meta :
  preloaded s = true ->
  getNodeScheduleInformationSafe v = Ok (Some meta) ->
  isNodeVersionMaintenance s v =
  Ok (window (Schedule.maintenance meta) (Some (Schedule.end_ meta)) (now s)).
Proof.
  intros Hp Hm. unfold isNodeVersionMaintenance. now rewrite Hp, Hm.
Qed.

Lemma isNodeVersionActive_known s v meta :
  preloaded s = true ->
  (isAbsoluteVersion v = true -> labelled v) ->
  getNodeScheduleInformationSafe v = Ok (Some meta) ->
  isNodeVersionActive s v =
  Ok (window (Schedule.lts meta)
        (or_date (Schedule.maintenance meta) (Some (Schedule.end_ meta)))
        (now s)).
Proof.
  intros Hp Hl Hm. unfold isNodeVersionActive. rewrite Hp. simpl.
  destruct (isAbsoluteVersion v).
  - destruct (Hl eq_refl) as (info & label & Hi & Hlab).
    rewrite Hi. simpl. rewrite Hlab. simpl. now rewrite Hm.
  - simpl. now rewrite Hm.
Qed.

(** What [isNodeVersionActive] returning [true] tells. *)
Lemma isNodeVersionActive_true s v :
  isNodeVersionActive s v = Ok true ->
  preloaded s = true
  /\ exists meta start,
       getNodeScheduleInformationSafe v = Ok (Some meta)
       /\ Schedule.lts meta = Some start
       /\ start <= now s.
Proof.
  unfold isNodeVersionActive.
  destruct (preloaded s); simpl; [ | discriminate ].
  intros Ha. split; [ reflexivity | ].
  destruct (isAbsoluteVersion v).
  - destruct (getNodeReleaseInformation v) as [info | e]; simpl in Ha;
      [ | discriminate ].
    destruct (Release.lts info); simpl in Ha; [ | discriminate ].
    destruct (getNodeScheduleInformationSafe v) as [[meta | ] | e];
      simpl in Ha; try discriminate.
    exists meta. unfold window in Ha.
    destruct (Schedule.lts meta) as [start | ]; [ | discriminate ].
    exists start. repeat split.
    destruct (or_date _ _); [ | discriminate ].
    injection Ha as Ha. apply andb_true_iff in Ha. lia.
  - simpl in Ha.
    destruct (getNodeScheduleInformationSafe v) as [[meta | ] | e];
      simpl in Ha; try discriminate.
    exists meta. unfold window in Ha.
    destruct (Schedule.lts meta) as [start | ]; [ | discriminate ].
    exists start. repeat split.
    destruct (or_date _ _); [ | discriminate ].
    injection Ha as Ha. apply andb_true_iff in Ha. lia.
Qed.

(** C1, amended.  Take an identifier whose schedule entry has an lts date
    and a maintenance date, the first not after the second, and which, if
    it is absolute, has a labelled release.  After preload, at every
    instant of the line's window [start, end] other than those two dates,
    exactly one of the three phase predicates returns true.  The windows
    are closed, so on the lts date both Current and Active return true,
    and on the maintenance date both Active and Maintenance do. *)
Theorem phases_partition_window s v meta l m :
  preloaded s = true ->
  getNodeScheduleInformationSafe v = Ok (Some meta) ->
  (isAbsoluteVersion v = true -> labelled v) ->
  Schedule.lts meta = Some l ->
  Schedule.maintenance meta = Some m ->
  l <= m ->
  Schedule.start meta <= now s <= Schedule.end_ meta ->
  (now s <> l -> now s <> m -> exactly_one_phase s v)
  /\ (now s = l ->
      isNodeVersionCurrent s v = Ok true
      /\ isNodeVersionActive s v = Ok true)
  /\ (now s = m ->
      isNodeVersionActive s v = Ok true
      /\ isNodeVersionMaintenance s v = Ok true).
Proof.
  intros Hp Hmeta Hlab Hl Hm Hlm Hwin.
  unfold exactly_one_phase.
  rewrite (isNodeVersionCurrent_known _ _ _ Hp Hmeta).
  rewrite (isNodeVersionActive_known _ _ _ Hp Hlab Hmeta).
  rewrite (isNodeVersionMaintenance_known _ _ _ Hp Hmeta).
  rewrite Hl, Hm. simpl.
  split; [ | split ].
  - intros Hnl Hnm.
    do 3 eexists. repeat (split; [ reflexivity | ]).
    destruct (Z.leb_spec (Schedule.start meta) (now s));
      destruct (Z.leb_spec (now s) l);
      destruct (Z.leb_spec l (now s));
      destruct (Z.leb_spec (now s) m);
      destruct (Z.leb_spec m (now s));
      destruct (Z.leb_spec (now s) (Schedule.end_ meta));
      simpl; try reflexivity; lia.
  - intros Hnow. split; f_equal; apply andb_true_iff; lia.
  - intros Hnow. split; f_equal; apply andb_true_iff; lia.
Qed.

(** On the two dates themselves the phases still cover the window: at
    every instant of it at least one of the three predicates returns
    true. *)
Lemma phases_cover_window s v meta l m :
  preloaded s = true ->
  getNodeScheduleInformationSafe v = Ok (Some meta) ->
  (isAbsoluteVersion v = true -> labelled v) ->
  Schedule.lts meta = Some l ->
  Schedule.maintenance meta = Some m ->
  l <= m ->
  Schedule.start meta <= now s <= Schedule.end_ meta ->
  exists c a t,
    isNodeVersionCurrent s v = Ok c
    /\ isNodeVersionActive s v = Ok a
    /\ isNodeVersionMaintenance s v = Ok t
    /\ c || a || t = true.
Proof.
  intros Hp Hmeta Hlab Hl Hm Hlm Hwin.
  rewrite (isNodeVersionCurrent_known _ _ _ Hp Hmeta).
  rewrite (isNodeVersionActive_known _ _ _ Hp Hlab Hmeta).
  rewrite (isNodeVersionMaintenance_known _ _ _ Hp Hmeta).
  rewrite Hl, Hm. simpl.
  do 3 eexists. repeat (split; [ reflexivity | ]).
  destruct (Z.leb_spec (Schedule.start meta) (now s));
    destruct (Z.leb_spec (now s) l);
    destruct (Z.leb_spec l (now s));
    destruct (Z.leb_spec (now s) m);
    destruct (Z.leb_spec m (now s));
    destruct (Z.leb_spec (now s) (Schedule.end_ meta));
    simpl; try reflexivity; lia.
Qed.

(** After preload, [isNodeVersionMaintainedOrLTS] is maintained OR
    (released AND lts) on the identifiers of lines, where the three are
    the predicates of that name. *)
Lemma isNodeVersionMaintainedOrLTS_decomposed s v :
  preloaded s = true ->
  isAbsoluteVersion v = false ->
  isNodeVersionMaintainedOrLTS s v =
  (maintained <- isNodeVersionMaintained s v ;;
   released <- isNodeVersionReleased s v ;;
   lts <- isNodeVersionLTS s v ;;
   Ok (maintained || (released && lts))).
Proof.
  intros Hp Habs.
  unfold isNodeVersionMaintainedOrLTS, isNodeVersionMaintained,
    isNodeVersionReleased, isNodeVersionLTS.
  rewrite Habs, Hp. simpl.
  destruct (getNodeScheduleInformationSafe v) as [[meta | ] | e]; simpl;
    try reflexivity.
  destruct (Z.leb_spec (Schedule.start meta) (now s));
    destruct (Z.geb_spec (now s) (Schedule.start meta)); try lia; simpl.
  - destruct (now s <=? Schedule.end_ meta); simpl; [ reflexivity | ].
    reflexivity.
  - reflexivity.
Qed.

(** The same three conditions read from the schedule entry of the
    identifier, absolute or not: inside the window from start to end, or
    past the start and with an lts date or no maintenance date. *)
Lemma isNodeVersionMaintainedOrLTS_of_entry s v meta :
  preloaded s = true ->
  getNodeScheduleInformationSafe v = Ok (Some meta) ->
  isNodeVersionMaintainedOrLTS s v =
  Ok (window (Some (Schedule.start meta)) (Some (Schedule.end_ meta)) (now s)
      || ((now s >=? Schedule.start meta) && lts_or_historical meta)).
Proof.
  intros Hp Hmeta. unfold isNodeVersionMaintainedOrLTS, window.
  rewrite Hp, Hmeta. simpl.
  destruct (Z.leb_spec (Schedule.start meta) (now s));
    destruct (Z.geb_spec (now s) (Schedule.start meta)); try lia; simpl;
    [ | reflexivity ].
  now destruct (now s <=? Schedule.end_ meta).
Qed.

(** C2, amended.  When the lts date of the entry is not before its start
    date, an identifier that [isNodeVersionActive] accepts is accepted by
    [isNodeVersionMaintainedOrLTS] too.  After preload,
    [isNodeVersionMaintainedOrLTS] is maintained OR (released AND lts) as
    the schedule entry of the identifier gives the three; for an
    identifier that is not absolute these are [isNodeVersionMaintained],
    [isNodeVersionReleased] and [isNodeVersionLTS]. *)
Theorem active_implies_maintainedOrLTS s v :
  ((forall meta start,
       getNodeScheduleInformationSafe v = Ok (Some meta) ->
       Schedule.lts meta = Some start ->
       Schedule.start meta <= start) ->
   isNodeVersionActive s v = Ok true ->
   isNodeVersionMaintainedOrLTS s v = Ok true)
  /\ (forall meta,
         preloaded s = true ->
         getNodeScheduleInformationSafe v = Ok (Some meta) ->
         isNodeVersionMaintainedOrLTS s v =
         Ok (window (Some (Schedule.start meta)) (Some (Schedule.end_ meta))
               (now s)
             || ((now s >=? Schedule.start meta) && lts_or_historical meta)))
  /\ (preloaded s = true ->
      isAbsoluteVersion v = false ->
      isNodeVersionMaintainedOrLTS s v =
      (maintained <- isNodeVersionMaintained s v ;;
       released <- isNodeVersionReleased s v ;;
       lts <- isNodeVersionLTS s v ;;
       Ok (maintained || (released && lts)))).
Proof.
  split; [ | split ].
  - intros Hord Ha.
    destruct (isNodeVersionActive_true _ _ Ha)
      as (Hp & meta & start & Hmeta & Hlts & Hnow).
    specialize (Hord _ _ Hmeta Hlts).
    rewrite (isNodeVersionMaintainedOrLTS_of_entry _ _ _ Hp Hmeta).
    unfold window, lts_or_historical. rewrite Hlts. f_equal.
    replace (now s >=? Schedule.start meta) with true by lia.
    apply orb_true_r.
  - intros meta. apply isNodeVersionMaintainedOrLTS_of_entry.
  - apply isNodeVersionMaintainedOrLTS_decomposed.
Qed.

(** C7, amended.  After preload, for an identifier whose schedule lookup
    gives an entry: without an lts date in the entry [isNodeVersionActive]
    returns false, provided the release lookup it makes for an absolute
    identifier returns; without a maintenance date
    [isNodeVersionMaintenance] returns false.  Neither throws. *)
Theorem dateless_entry_is_false s v meta :
  preloaded s = true ->
  getNodeScheduleInformationSafe v = Ok (Some meta) ->
  (Schedule.lts meta = None ->
   (isAbsoluteVersion v = true -> returns (getNodeReleaseInformation v)) ->
   isNodeVersionActive s v = Ok false)
  /\ (Schedule.maintenance meta = None ->
      isNodeVersionMaintenance s v = Ok false).
Proof.
  intros Hp Hmeta. split.
  - intros Hl Hrel. unfold isNodeVersionActive. rewrite Hp. simpl.
    destruct (isAbsoluteVersion v).
    + destruct (Hrel eq_refl) as [info Hi]. rewrite Hi. simpl.
      destruct (Release.lts info); simpl; [ | reflexivity ].
      rewrite Hmeta. simpl. now rewrite Hl.
    + simpl. rewrite Hmeta. simpl. now rewrite Hl.
  - intros Hm. rewrite (isNodeVersionMaintenance_known _ _ _ Hp Hmeta).
    now rewrite Hm.
Qed.

(** The other date-window predicates need no optional date: on a known
    entry they return the truth value of their window. *)
Lemma windows_of_known_entry s v meta :
  preloaded s = true ->
  getNodeScheduleInformationSafe v = Ok (Some meta) ->
  returns (isNodeVersionCurrent s v)
  /\ returns (isNodeVersionActiveOrCurrent s v)
  /\ returns (isNodeVersionMaintained s v)
  /\ returns (isNodeVersionMaintainedOrLTS s v)
  /\ returns (isNodeVersionMaintenance s v).
Proof.
  intros Hp Hmeta.
  unfold isNodeVersionCurrent, isNodeVersionActiveOrCurrent,
    isNodeVersionMaintained, isNodeVersionMaintainedOrLTS,
    isNodeVersionMaintenance, returns.
  rewrite Hp, Hmeta. simpl.
  repeat split; try (eexists; reflexivity).
  destruct (now s >=? Schedule.start meta); simpl;
    [ destruct (now s <=? Schedule.end_ meta) | ]; eexists; reflexivity.
Qed.

Lemma lts_or_historical_true meta :
  lts_or_historical meta = true <->
  Schedule.lts meta <> None \/ Schedule.maintenance meta = None.
Proof.
  unfold lts_or_historical.
  destruct (Schedule.lts meta), (Schedule.maintenance meta);
    intuition (congruence || discriminate).
Qed.

Lemma lts_of_schedule_true v :
  lts_of_schedule v = Ok true <-> lts_entry v.
Proof.
  unfold lts_of_schedule, lts_entry. split.
  - destruct (getNodeScheduleInformationSafe v) as [[meta | ] | e];
      simpl; try discriminate.
    intros Hr. injection Hr as Hr. exists meta.
    split; [ reflexivity | now apply lts_or_historical_true ].
  - intros (meta & -> & Hd). simpl.
    f_equal. now apply lts_or_historical_true.
Qed.

Lemma lts_of_schedule_returns v :
  returns (getNodeScheduleInformationSafe v) -> returns (lts_of_schedule v).
Proof.
  unfold lts_of_schedule. intros [[meta | ] ->]; simpl; now eexists.
Qed.

(** C3, amended.  After preload [isNodeVersionLTS] returns true exactly
    when the safe lookup yields an entry with an lts date or without a
    maintenance date and, if the identifier is absolute and compares
    greater than or equal to 1, its release has a string lts label.  It
    returns (true or false) whenever the lookups it makes return. *)
Theorem isNodeVersionLTS_exactly s v :
  preloaded s = true ->
  (isNodeVersionLTS s v = Ok true <->
   lts_entry v
   /\ (isAbsoluteVersion v = true -> versionCompare v "1" >= 0 ->
       labelled v))
  /\ ((isAbsoluteVersion v = true -> versionCompare v "1" >= 0 ->
       returns (getNodeReleaseInformation v)) ->
      returns (getNodeScheduleInformationSafe v) ->
      returns (isNodeVersionLTS s v)).
Proof.
  intros Hp. unfold isNodeVersionLTS. rewrite Hp. simpl.
  fold (lts_of_schedule v).
  destruct (isAbsoluteVersion v); simpl;
    [ destruct (Z.geb_spec (versionCompare v "1") 0) as [Hge | Hlt] | ].
  - assert (Hge' : versionCompare v "1" >= 0) by lia.
    split; [ split | ].
    + destruct (getNodeReleaseInformation v) as [info | e] eqn:Hi;
        simpl; [ | discriminate ].
      destruct (Release.lts info) as [label | ] eqn:Hlab; simpl;
        [ | discriminate ].
      intros Hr. split; [ now apply lts_of_schedule_true | ].
      intros _ _. now exists info, label.
    + intros [Hentry Hl].
      destruct (Hl eq_refl Hge') as (info & label & -> & Hlab).
      simpl. rewrite Hlab. simpl. now apply lts_of_schedule_true.
    + intros Hrel Hm.
      destruct (Hrel eq_refl Hge') as [info ->]. simpl.
      destruct (Release.lts info); simpl;
        [ now apply lts_of_schedule_returns | now eexists ].
  - split; [ split | ].
    + intros Hr. split; [ now apply lts_of_schedule_true | ].
      intros _ Hge. lia.
    + intros [Hentry _]. now apply lts_of_schedule_true.
    + intros _ Hm. now apply lts_of_schedule_returns.
  - split; [ split | ].
    + intros Hr. split; [ now apply lts_of_schedule_true | ].
      intros Habs. discriminate Habs.
    + intros [Hentry _]. now apply lts_of_schedule_true.
    + intros _ Hm. now apply lts_of_schedule_returns.
Qed.

(** Nothing but a preload computes the aggregates: they are undefined in
    the initial state, and [datetime] leaves them as they are. *)
Lemma initial_latest_undefined t0 :
  nodeVersionLatestActive (initial t0) = None
  /\ nodeVersionLatestCurrent (initial t0) = None
  /\ nodeVersionLatestMaintenance (initial t0) = None.
Proof. repeat split. Qed.

Lemma datetime_keeps_latest when s :
  let s' := snd (datetime when s) in
  nodeVersionLatestActive s' = nodeVersionLatestActive s
  /\ nodeVersionLatestCurrent s' = nodeVersionLatestCurrent s
  /\ nodeVersionLatestMaintenance s' = nodeVersionLatestMaintenance s
  /\ preloaded s' = preloaded s.
Proof. destruct when; repeat split. Qed.

(** A preload whose fetch of the schedule or of the releases fails
    changes nothing. *)
Lemma preload_fetch_failure s e :
  preloadNodeSchedule = Throw e
  \/ (preloadNodeSchedule = Ok tt /\ preloadNodeReleases = Throw e) ->
  preloadNodeVersions s = (Throw e, s).
Proof.
  unfold preloadNodeVersions, andThen, await.
  intros [-> | [-> ->]]; reflexivity.
Qed.

Lemma before_preload_latest s :
  before_preload s ->
  preloaded s = false
  /\ nodeVersionLatestActive s = None
  /\ nodeVersionLatestCurrent s = None
  /\ nodeVersionLatestMaintenance s = None.
Proof.
  induction 1 as [t0 | when s _ IH | s e _ IH Hfail].
  - repeat split.
  - destruct (datetime_keeps_latest when s) as (-> & -> & -> & ->).
    exact IH.
  - rewrite (preload_fetch_failure s e Hfail). exact IH.
Qed.

(** C6.  While an aggregate identifier is not computed (it is undefined
    from the start), the latest predicate that reads it throws the
    unpreloaded error, for every version; so do all three in every state
    the module is in before a preload gets past its fetches. *)
Theorem latest_filters_throw_unpreloaded s v :
  (nodeVersionLatestActive s = None ->
   isNodeVersionLatestActive s v =
   Throw "You must await [preloadNodeVersions] prior to using the [isNodeVersionLatestActive] filter.")
  /\ (nodeVersionLatestCurrent s = None ->
      isNodeVersionLatestCurrent s v =
      Throw "You must await [preloadNodeVersions] prior to using the [isNodeVersionLatestCurrent] filter.")
  /\ (nodeVersionLatestMaintenance s = None ->
      isNodeVersionLatestMaintenance s v =
      Throw "You must await [preloadNodeVersions] prior to using the [isNodeVersionLatestMaintenance] filter.")
  /\ (before_preload s ->
      isNodeVersionLatestActive s v =
      Throw "You must await [preloadNodeVersions] prior to using the [isNodeVersionLatestActive] filter."
      /\ isNodeVersionLatestCurrent s v =
         Throw "You must await [preloadNodeVersions] prior to using the [isNodeVersionLatestCurrent] filter."
      /\ isNodeVersionLatestMaintenance s v =
         Throw "You must await [preloadNodeVersions] prior to using the [isNodeVersionLatestMaintenance] filter.").
Proof.
  unfold isNodeVersionLatestActive, isNodeVersionLatestCurrent,
    isNodeVersionLatestMaintenance.
  split; [ intros ->; reflexivity | ].
  split; [ intros ->; reflexivity | ].
  split; [ intros ->; reflexivity | ].
  intros Hs. destruct (before_preload_latest s Hs) as (_ & -> & -> & ->).
  repeat split.
Qed.

End Classifier.

(** C9, amended.  [isNodeVersionVercel] is membership in the allow-list
    10, 12, 14 by comparator equality; it reads neither the clock nor the
    repositories; it accepts 12 and 14 and rejects 13.  The predecessor's
    predicate has the allow-list 10, 12: the two agree on every input that
    does not compare equal to 14, and what the predecessor accepts the
    current one accepts. *)
Theorem isNodeVersionVercel_allow_list
  (C : Collaborators) (version : NodeVersionInput) :
  (isNodeVersionVercel version = true <->
   versionCompare version "10" = 0
   \/ versionCompare version "12" = 0
   \/ versionCompare version "14" = 0)
  /\ (forall C' : Collaborators,
        @versionCompare C' = @versionCompare C ->
        @isNodeVersionVercel C' version = @isNodeVersionVercel C version)
  /\ (@isNodeVersionVercel Sample.published "12" = true
      /\ @isNodeVersionVercel Sample.published "14" = true
      /\ @isNodeVersionVercel Sample.published "13" = false)
  /\ (versionCompare version "14" <> 0 ->
      Legacy.isNodeVersionVercel version = isNodeVersionVercel version)
  /\ (Legacy.isNodeVersionVercel version = true ->
      isNodeVersionVercel version = true).
Proof.
  unfold isNodeVersionVercel, Legacy.isNodeVersionVercel.
  split; [ | split; [ | split; [ | split ] ] ].
  - rewrite !orb_true_iff, !Z.eqb_eq. tauto.
  - intros C' ->. reflexivity.
  - repeat split.
  - intros Hne. apply Z.eqb_neq in Hne. rewrite Hne. symmetry. apply orb_false_r.
  - intros ->. reflexivity.
Qed.

Lemma isNodeVersionVercel_allow_list_witness :
  @Legacy.isNodeVersionVercel Sample.published "10.5.0" =
  @isNodeVersionVercel Sample.published "10.5.0".
Proof.
  apply (proj1 (proj2 (proj2 (proj2
    (isNodeVersionVercel_allow_list Sample.published "10.5.0"))))).
  vm_compute. discriminate.
Defined.

(** The claim as stated fails at 14, which only the current allow-list
    holds. *)
Lemma vercel_implementations_differ_at_14 :
  @isNodeVersionVercel Sample.published "14" = true
  /\ @Legacy.isNodeVersionVercel Sample.published "14" = false.
Proof. split; reflexivity. Qed.

Section Lists.

Context {A : Type}.

Lemma filterM_Ok (p : A -> result bool) (l r : list A) :
  filterM p l = Ok r ->
  r = filter (fun x => holds (p x)) l /\ Forall (fun x => returns (p x)) l.
Proof.
  revert r. induction l as [ | x l IH]; simpl; intros r Hr.
  - injection Hr as <-. split; [ reflexivity | constructor ].
  - destruct (p x) as [b | e] eqn:Hx; simpl in Hr; [ | discriminate ].
    destruct (filterM p l) as [r' | e]; simpl in Hr; [ | discriminate ].
    injection Hr as <-.
    destruct (IH r' eq_refl) as [-> Hall].
    split.
    + destruct b; reflexivity.
    + constructor; [ now exists b | assumption ].
Qed.

Lemma filterM_total (p : A -> result bool) (l : list A) :
  Forall (fun x => returns (p x)) l ->
  filterM p l = Ok (filter (fun x => holds (p x)) l).
Proof.
  induction 1 as [ | x l [b Hx] _ IH]; simpl; [ reflexivity | ].
  rewrite Hx, IH. simpl. destruct b; reflexivity.
Qed.

Lemma filterM_ext (p q : A -> result bool) (l : list A) :
  (forall x, p x = q x) -> filterM p l = filterM q l.
Proof.
  intros Hpq. induction l as [ | x l IH]; simpl; [ reflexivity | ].
  now rewrite Hpq, IH.
Qed.

Lemma last_None (l : list A) : last l = None -> l = [].
Proof.
  induction l as [ | x l IH]; [ reflexivity | ].
  destruct l as [ | y l]; [ discriminate | ].
  intros Hl. discriminate (IH Hl).
Qed.

Lemma last_cons (x : A) (l : list A) : l <> [] -> last (x :: l) = last l.
Proof. destruct l; [ congruence | reflexivity ]. Qed.

Lemma last_app_cons (l1 l2 : list A) (x : A) :
  last (l1 ++ x :: l2) = last (x :: l2).
Proof.
  induction l1 as [ | y l1 IH]; [ reflexivity | ].
  rewrite <- app_comm_cons, last_cons; [ exact IH | ].
  destruct l1; discriminate.
Qed.

Lemma filter_nil_iff (p : A -> bool) (l : list A) :
  filter p l = [] <-> Forall (fun y => p y = false) l.
Proof.
  induction l as [ | y l IH]; simpl.
  - split; [ constructor | reflexivity ].
  - destruct (p y) eqn:Hy.
    + split; [ discriminate | ].
      intros Hall. inversion Hall; congruence.
    + rewrite IH. split; [ now constructor | ].
      intros Hall. now inversion Hall.
Qed.

(** [last (filter p l)] is the last element of [l], by position, that
    satisfies [p]; it is undefined exactly when no element does. *)
Lemma last_filter_Some (p : A -> bool) (l : list A) (x : A) :
  last (filter p l) = Some x <->
  exists l1 l2,
    l = l1 ++ x :: l2 /\ p x = true /\ Forall (fun y => p y = false) l2.
Proof.
  split.
  - induction l as [ | y l IH]; simpl; [ discriminate | ].
    destruct (filter p l) as [ | a r] eqn:Hf.
    + destruct (p y) eqn:Hy; [ | discriminate ].
      intros Hx. injection Hx as <-.
      exists [], l. repeat split; [ assumption | ].
      now apply filter_nil_iff.
    + intros Hx.
      assert (Hl : last (a :: r) = Some x).
      { destruct (p y); [ | assumption ].
        rewrite last_cons in Hx; [ assumption | discriminate ]. }
      destruct (IH Hl) as (l1 & l2 & -> & Hp & Hall).
      now exists (y :: l1), l2.
  - intros (l1 & l2 & -> & Hp & Hall).
    rewrite filter_app. simpl. rewrite Hp, last_app_cons.
    apply filter_nil_iff in Hall. now rewrite Hall.
Qed.

Lemma last_holds_position (p : A -> result bool) (l : list A) (x : A) :
  last (filter (fun v => holds (p v)) l) = Some x <->
  exists l1 l2,
    l = l1 ++ x :: l2 /\ p x = Ok true
    /\ Forall (fun y => p y <> Ok true) l2.
Proof.
  assert (Hholds : forall y, holds (p y) = true <-> p y = Ok true).
  { intros y. unfold holds. destruct (p y) as [[ | ] | e]; split;
      congruence. }
  rewrite last_filter_Some. split; intros (l1 & l2 & Hl & Hx & Hall);
    exists l1, l2; (split; [ exact Hl | ]); (split; [ now apply Hholds | ]);
    eapply Forall_impl; try exact Hall; intros y Hy.
  - rewrite <- Hholds. congruence.
  - destruct (holds (p y)) eqn:Hp; [ | reflexivity ].
    apply Hholds in Hp. contradiction.
Qed.

Lemma last_filter_None (p : A -> bool) (l : list A) :
  last (filter p l) = None <-> Forall (fun y => p y = false) l.
Proof.
  rewrite <- filter_nil_iff. split.
  - apply last_None.
  - intros ->. reflexivity.
Qed.

End Lists.

Section Aggregates.

Context `{Collaborators}.

(** The state a completed preload leaves: the three scans of the
    schedule identifiers all returned, and their last elements are the
    aggregates. *)
Lemma preload_Ok s s' :
  preloadNodeVersions s = (Ok tt, s') ->
  exists current active maintenance,
    filterM (fun v : NodeVersionIdentifier =>
               isNodeVersionCurrent s' v) getNodeScheduleIdentifiers
    = Ok current
    /\ filterM (fun v : NodeVersionIdentifier =>
                  isNodeVersionActive s' v) getNodeScheduleIdentifiers
       = Ok active
    /\ filterM (fun v : NodeVersionIdentifier =>
                  isNodeVersionMaintenance s' v) getNodeScheduleIdentifiers
       = Ok maintenance
    /\ s' = mkState true (last current) (last active) (last maintenance)
              (now s).
Proof.
  unfold preloadNodeVersions, andThen, await, reading, assign.
  destruct preloadNodeSchedule as [[] | e]; [ | discriminate ].
  destruct preloadNodeReleases as [[] | e]; [ | discriminate ].
  destruct (filterM (fun v : NodeScheduleIdentifier =>
                       isNodeVersionCurrent (set_preloaded true s) v)
                       getNodeScheduleIdentifiers)
    as [current | e] eqn:Hc; [ | discriminate ].
  destruct (filterM (fun v : NodeScheduleIdentifier =>
                       isNodeVersionActive _ v) getNodeScheduleIdentifiers)
    as [active | e] eqn:Ha; [ | discriminate ].
  destruct (filterM (fun v : NodeScheduleIdentifier =>
                       isNodeVersionMaintenance _ v) getNodeScheduleIdentifiers)
    as [maintenance | e] eqn:Hm; [ | discriminate ].
  intros Hs. injection Hs as <-.
  exists current, active, maintenance.
  repeat split.
  - rewrite <- Hc. apply filterM_ext. intros v.
    now apply isNodeVersionCurrent_view.
  - rewrite <- Ha. apply filterM_ext. intros v.
    now apply isNodeVersionActive_view.
  - rewrite <- Hm. apply filterM_ext. intros v.
    now apply isNodeVersionMaintenance_view.
Qed.

(** What a completed preload leaves in each aggregate: the last identifier
    its scan kept. *)
Lemma preload_scans s s' :
  preloadNodeVersions s = (Ok tt, s') ->
  exists current active maintenance,
    (last current =
     last (filter (fun v : NodeVersionIdentifier =>
                     holds (isNodeVersionCurrent s' v))
             getNodeScheduleIdentifiers)
     /\ nodeVersionLatestCurrent s' = last current)
    /\ (last active =
        last (filter (fun v : NodeVersionIdentifier =>
                        holds (isNodeVersionActive s' v))
                getNodeScheduleIdentifiers)
        /\ nodeVersionLatestActive s' = last active)
    /\ (last maintenance =
        last (filter (fun v : NodeVersionIdentifier =>
                        holds (isNodeVersionMaintenance s' v))
                getNodeScheduleIdentifiers)
        /\ nodeVersionLatestMaintenance s' = last maintenance).
Proof.
  intros Hrun.
  destruct (preload_Ok _ _ Hrun)
    as (current & active & maintenance & Hc & Ha & Hm & Hs).
  exists current, active, maintenance.
  apply filterM_Ok in Hc, Ha, Hm.
  destruct Hc as [Hc _], Ha as [Ha _], Hm as [Hm _].
  split; [ split; [ now rewrite <- Hc | now rewrite Hs ] | ].
  split; [ split; [ now rewrite <- Ha | now rewrite Hs ] | ].
  split; [ now rewrite <- Hm | now rewrite Hs ].
Qed.

(** A preload completes when the two fetches succeed and the lookups of
    the schedule identifiers return. *)
Lemma preload_completes s :
  preloadNodeSchedule = Ok tt ->
  preloadNodeReleases = Ok tt ->
  Forall (fun v : NodeVersionIdentifier =>
            returns (getNodeScheduleInformationSafe v)
            /\ (isAbsoluteVersion v = true ->
                returns (getNodeReleaseInformation v)))
    getNodeScheduleIdentifiers ->
  exists s', preloadNodeVersions s = (Ok tt, s').
Proof.
  intros Hs Hr Hall.
  unfold preloadNodeVersions, andThen, await, reading, assign.
  rewrite Hs, Hr.
  rewrite (filterM_total (fun v : NodeVersionIdentifier =>
                            isNodeVersionCurrent (set_preloaded true s) v)).
  2:{ eapply Forall_impl; [ | exact Hall ].
      intros v [[meta Hm] _]. unfold isNodeVersionCurrent. simpl.
      rewrite Hm. simpl. destruct meta; now eexists. }
  rewrite (filterM_total (fun v : NodeVersionIdentifier =>
                            isNodeVersionActive _ v)).
  2:{ eapply Forall_impl; [ | exact Hall ].
      intros v [[meta Hm] Hrel]. unfold isNodeVersionActive. simpl.
      destruct (isAbsoluteVersion v).
      - destruct (Hrel eq_refl) as [info ->]. simpl.
        destruct (Release.lts info); simpl; [ | now eexists ].
        rewrite Hm. simpl. destruct meta; now eexists.
      - simpl. rewrite Hm. simpl. destruct meta; now eexists. }
  rewrite (filterM_total (fun v : NodeVersionIdentifier =>
                            isNodeVersionMaintenance _ v)).
  2:{ eapply Forall_impl; [ | exact Hall ].
      intros v [[meta Hm] _]. unfold isNodeVersionMaintenance. simpl.
      rewrite Hm. simpl. destruct meta; now eexists. }
  now eexists.
Qed.


(** The aggregate is the last by position: every identifier listed after
    it fails the predicate, whatever the comparator says of them. *)
Lemma latestActive_position s s' x :
  preloadNodeVersions s = (Ok tt, s') ->
  (nodeVersionLatestActive s' = Some x <->
   exists before after,
     getNodeScheduleIdentifiers = before ++ x :: after
     /\ isNodeVersionActive s' x = Ok true
     /\ Forall (fun y : NodeVersionIdentifier =>
                  isNodeVersionActive s' y <> Ok true) after).
Proof.
  intros Hrun.
  destruct (preload_scans _ _ Hrun) as (_ & active & _ & _ & [Ha ->] & _).
  rewrite Ha.
  apply (last_holds_position (fun v : NodeVersionIdentifier =>
                                isNodeVersionActive s' v)).
Qed.

(** C10.  A preload that completes leaves an aggregate undefined when no
    schedule identifier satisfies its predicate at the clock of the
    preload; the latest predicate of that aggregate then throws the
    unpreloaded error on every version, also after the clock is moved. *)
Theorem latest_filter_throws_after_preload s s' :
  preloadNodeVersions s = (Ok tt, s') ->
  ((forall v, In v getNodeScheduleIdentifiers ->
              isNodeVersionActive s' v <> Ok true) ->
   nodeVersionLatestActive s' = None
   /\ forall when v,
        isNodeVersionLatestActive (snd (datetime when s')) v =
        Throw "You must await [preloadNodeVersions] prior to using the [isNodeVersionLatestActive] filter.")
  /\ ((forall v, In v getNodeScheduleIdentifiers ->
                 isNodeVersionCurrent s' v <> Ok true) ->
      nodeVersionLatestCurrent s' = None
      /\ forall when v,
           isNodeVersionLatestCurrent (snd (datetime when s')) v =
           Throw "You must await [preloadNodeVersions] prior to using the [isNodeVersionLatestCurrent] filter.")
  /\ ((forall v, In v getNodeScheduleIdentifiers ->
                 isNodeVersionMaintenance s' v <> Ok true) ->
      nodeVersionLatestMaintenance s' = None
      /\ forall when v,
           isNodeVersionLatestMaintenance (snd (datetime when s')) v =
           Throw "You must await [preloadNodeVersions] prior to using the [isNodeVersionLatestMaintenance] filter.").
Proof.
  intros Hrun.
  destruct (preload_scans _ _ Hrun)
    as (current & active & maintenance & [Hc' Hc] & [Ha' Ha] & [Hm' Hm]).
  rewrite Hc' in Hc. rewrite Ha' in Ha. rewrite Hm' in Hm.
  clear Hc' Ha' Hm'.
  assert (Hnone : forall p : NodeVersionIdentifier -> result bool,
             (forall v, In v getNodeScheduleIdentifiers -> p v <> Ok true) ->
             last (filter (fun v => holds (p v)) getNodeScheduleIdentifiers)
             = None).
  { intros p Hp. apply last_filter_None, Forall_forall. intros v Hv.
    specialize (Hp v Hv). unfold holds.
    destruct (p v) as [[ | ] | e]; congruence. }
  repeat split.
  - rewrite Ha. now apply (Hnone (fun v : NodeVersionIdentifier =>
                                    isNodeVersionActive s' v)).
  - intros when v. unfold isNodeVersionLatestActive.
    destruct (datetime_keeps_latest when s') as (-> & _).
    rewrite Ha, (Hnone (fun v : NodeVersionIdentifier =>
                          isNodeVersionActive s' v));
      [ reflexivity | assumption ].
  - rewrite Hc. now apply (Hnone (fun v : NodeVersionIdentifier =>
                                    isNodeVersionCurrent s' v)).
  - intros when v. unfold isNodeVersionLatestCurrent.
    destruct (datetime_keeps_latest when s') as (_ & -> & _).
    rewrite Hc, (Hnone (fun v : NodeVersionIdentifier =>
                          isNodeVersionCurrent s' v));
      [ reflexivity | assumption ].
  - rewrite Hm. now apply (Hnone (fun v : NodeVersionIdentifier =>
                                    isNodeVersionMaintenance s' v)).
  - intros when v. unfold isNodeVersionLatestMaintenance.
    destruct (datetime_keeps_latest when s') as (_ & _ & -> & _).
    rewrite Hm, (Hnone (fun v : NodeVersionIdentifier =>
                          isNodeVersionMaintenance s' v));
      [ reflexivity | assumption ].
Qed.

End Aggregates.

Lemma truthy_conj_flag (a b : option bool) :
  truthy_flag (Filters.conj_flag a b) = truthy_flag a || truthy_flag b.
Proof. destruct a as [[ | ] | ], b as [[ | ] | ]; reflexivity. Qed.

(** When the two runs return, the run of the conjunction returns their
    conjunction. *)
Lemma checks_both (table : list Line) (a b : bool) :
  checks (map left_line table) = Ok a ->
  checks (map right_line table) = Ok b ->
  checks (map both_line table) = Ok (a && b).
Proof.
  revert a b.
  induction table as [ | [[fa fb] test] table IH]; simpl; intros a b Ha Hb.
  - injection Ha as <-. injection Hb as <-. reflexivity.
  - unfold unless_fails in *. simpl in *.
    destruct fa, fb; simpl in *;
      try (destruct test as [[ | ] | e]; simpl in *; try discriminate);
      try (injection Ha as <-); try (injection Hb as <-);
      try reflexivity; try (now apply IH).
    now rewrite andb_false_r.
Qed.

(** When the first run returns false, the run of the conjunction, if it
    returns, returns false. *)
Lemma checks_both_left_false (table : list Line) (m : bool) :
  checks (map left_line table) = Ok false ->
  checks (map both_line table) = Ok m ->
  m = false.
Proof.
  induction table as [ | [[fa fb] test] table IH]; simpl; intros Ha Hm.
  - discriminate Ha.
  - unfold unless_fails in *. simpl in *.
    destruct fa, fb; simpl in *;
      try (destruct test as [[ | ] | e]; simpl in *; try discriminate);
      try (injection Hm as <-); try reflexivity; now apply IH.
Qed.

Lemma filter_filter {A : Type} (p q : A -> bool) (l : list A) :
  filter q (filter p l) = filter (fun x => p x && q x) l.
Proof.
  induction l as [ | x l IH]; simpl; [ reflexivity | ].
  destruct (p x); simpl; [ destruct (q x) | ]; now rewrite IH.
Qed.

Section FilterEngine.

Context `{Collaborators}.

Lemma isNodeVersion_left s v a b :
  Filters.booleanOnly a ->
  isNodeVersion s v a = checks (map left_line (lines s v a b)).
Proof.
  intros (H1 & H2 & H3 & H4 & H5).
  unfold isNodeVersion. rewrite H1, H2, H3, H4, H5. reflexivity.
Qed.

Lemma isNodeVersion_right s v a b :
  Filters.booleanOnly b ->
  isNodeVersion s v b = checks (map right_line (lines s v a b)).
Proof.
  intros (H1 & H2 & H3 & H4 & H5).
  unfold isNodeVersion. rewrite H1, H2, H3, H4, H5. reflexivity.
Qed.

Lemma isNodeVersion_both s v a b :
  Filters.booleanOnly a ->
  Filters.booleanOnly b ->
  isNodeVersion s v (Filters.conj a b)
  = checks (map both_line (lines s v a b)).
Proof.
  intros (A1 & A2 & A3 & A4 & A5) (B1 & B2 & B3 & B4 & B5).
  unfold isNodeVersion, Filters.conj. simpl.
  rewrite A1, A2, A3, A4, A5, B1, B2, B3, B4, B5. simpl.
  rewrite !truthy_conj_flag. reflexivity.
Qed.

Lemma isNodeVersion_conj s v a b x y :
  Filters.booleanOnly a ->
  Filters.booleanOnly b ->
  isNodeVersion s v a = Ok x ->
  isNodeVersion s v b = Ok y ->
  isNodeVersion s v (Filters.conj a b) = Ok (x && y).
Proof.
  intros Ha Hb.
  rewrite (isNodeVersion_left s v a b Ha), (isNodeVersion_right s v a b Hb),
    (isNodeVersion_both s v a b Ha Hb).
  apply checks_both.
Qed.

Lemma isNodeVersion_conj_rejects s v a b m :
  Filters.booleanOnly a ->
  Filters.booleanOnly b ->
  isNodeVersion s v a = Ok false ->
  isNodeVersion s v (Filters.conj a b) = Ok m ->
  m = false.
Proof.
  intros Ha Hb.
  rewrite (isNodeVersion_left s v a b Ha), (isNodeVersion_both s v a b Ha Hb).
  apply checks_both_left_false.
Qed.

(** C4, amended.  For two configurations with boolean keys only:
    whenever filtering by the first and then by the second returns, and
    filtering by their conjunction returns, the two lists are equal; and
    both do return, the same list, when [isNodeVersion] returns under
    each of the two configurations for every element of the list. *)
Theorem filterNodeVersions_twice_is_conj s versions a b :
  Filters.booleanOnly a ->
  Filters.booleanOnly b ->
  (returns (filterTwice s versions a b) ->
   returns (filterNodeVersions s versions (Filters.conj a b)) ->
   filterTwice s versions a b
   = filterNodeVersions s versions (Filters.conj a b))
  /\ (Forall (fun v : NodeVersionIdentifier => returns (isNodeVersion s v a)
                       /\ returns (isNodeVersion s v b)) versions ->
      filterTwice s versions a b
      = Ok (filter (fun v : NodeVersionIdentifier => holds (isNodeVersion s v a)
                             && holds (isNodeVersion s v b)) versions)
      /\ filterNodeVersions s versions (Filters.conj a b)
         = Ok (filter (fun v : NodeVersionIdentifier =>
                         holds (isNodeVersion s v a)
                                && holds (isNodeVersion s v b)) versions)).
Proof.
  intros Ha Hb. unfold filterTwice, filterNodeVersions. split.
  - intros [twice Htwice] [merged Hmerged].
    rewrite Htwice, Hmerged. f_equal.
    destruct (filterM (fun v : NodeVersionIdentifier =>
                         isNodeVersion s v a) versions)
      as [once | e] eqn:Honce; simpl in Htwice; [ | discriminate ].
    apply filterM_Ok in Honce, Htwice, Hmerged.
    destruct Honce as [-> Hra], Htwice as [-> Hrb], Hmerged as [-> Hrm].
    rewrite filter_filter. apply filter_ext_in. intros v Hv.
    rewrite Forall_forall in Hra, Hrb, Hrm.
    destruct (Hra v Hv) as [x Hx], (Hrm v Hv) as [m Hm].
    rewrite Hx, Hm.
    destruct x.
    + assert (Hin : In v (filter (fun v : NodeVersionIdentifier =>
                                    holds (isNodeVersion s v a))
                            versions)).
      { apply filter_In. split; [ assumption | now rewrite Hx ]. }
      destruct (Hrb v Hin) as [y Hy].
      rewrite (isNodeVersion_conj _ _ _ _ _ _ Ha Hb Hx Hy) in Hm.
      injection Hm as <-. rewrite Hy. reflexivity.
    + now rewrite (isNodeVersion_conj_rejects _ _ _ _ _ Ha Hb Hx Hm).
  - intros Hall.
    assert (Hra : Forall (fun v : NodeVersionIdentifier =>
                            returns (isNodeVersion s v a)) versions)
      by (eapply Forall_impl; [ | exact Hall ]; now intros v [Hv _]).
    rewrite Forall_forall in Hall.
    split.
    + rewrite (filterM_total _ _ Hra). simpl.
      rewrite filterM_total, filter_filter; [ reflexivity | ].
      apply Forall_forall. intros v Hv.
      apply filter_In in Hv. now apply Hall.
    + rewrite filterM_total.
      * f_equal. apply filter_ext_in. intros v Hv.
        destruct (Hall v Hv) as [[x Hx] [y Hy]].
        rewrite (isNodeVersion_conj _ _ _ _ _ _ Ha Hb Hx Hy), Hx, Hy.
        destruct x, y; reflexivity.
      * apply Forall_forall. intros v Hv.
        destruct (Hall v Hv) as [[x Hx] [y Hy]].
        exists (x && y). now apply isNodeVersion_conj.
Qed.

End FilterEngine.

Lemma phases_partition_window_witness :
  @exactly_one_phase Sample.published Runs.tested "14"
  /\ (@isNodeVersionCurrent Sample.published Runs.onLtsDate "14" = Ok true
      /\ @isNodeVersionActive Sample.published Runs.onLtsDate "14" = Ok true)
  /\ (@isNodeVersionActive Sample.published Runs.onMaintenanceDate "14"
      = Ok true
      /\ @isNodeVersionMaintenance Sample.published Runs.onMaintenanceDate
           "14"
         = Ok true).
Proof.
  split; [ | split ].
  - apply (@phases_partition_window Sample.published Runs.tested "14"
             Runs.line14 (utc 2020 10 27) (utc 2021 10 19)).
    + reflexivity.
    + reflexivity.
    + intros Habs. discriminate Habs.
    + reflexivity.
    + reflexivity.
    + vm_compute. discriminate.
    + split; vm_compute; discriminate.
    + vm_compute. discriminate.
    + vm_compute. discriminate.
  - apply (@phases_partition_window Sample.published Runs.onLtsDate "14"
             Runs.line14 (utc 2020 10 27) (utc 2021 10 19)).
    + vm_compute. reflexivity.
    + reflexivity.
    + intros Habs. discriminate Habs.
    + reflexivity.
    + reflexivity.
    + vm_compute. discriminate.
    + split; vm_compute; discriminate.
    + vm_compute. reflexivity.
  - apply (@phases_partition_window Sample.published Runs.onMaintenanceDate
             "14" Runs.line14 (utc 2020 10 27) (utc 2021 10 19)).
    + vm_compute. reflexivity.
    + reflexivity.
    + intros Habs. discriminate Habs.
    + reflexivity.
    + reflexivity.
    + vm_compute. discriminate.
    + split; vm_compute; discriminate.
    + vm_compute. reflexivity.
Defined.

(** The claim C1 as stated fails on the lts date itself: line 14 has
    distinct lts and maintenance dates, 27 October 2020 lies strictly
    between its start and its end, and both Current and Active hold
    there. *)
Lemma phases_overlap_on_lts_date :
  @getNodeScheduleInformationSafe Sample.published "14" = Ok (Some Runs.line14)
  /\ Schedule.lts Runs.line14 <> Schedule.maintenance Runs.line14
  /\ Schedule.start Runs.line14 < now Runs.onLtsDate
     < Schedule.end_ Runs.line14
  /\ @isNodeVersionCurrent Sample.published Runs.onLtsDate "14" = Ok true
  /\ @isNodeVersionActive Sample.published Runs.onLtsDate "14" = Ok true
  /\ ~ @exactly_one_phase Sample.published Runs.onLtsDate "14".
Proof.
  split; [ vm_compute; reflexivity | ].
  split; [ discriminate | ].
  split; [ split; vm_compute; reflexivity | ].
  split; [ vm_compute; reflexivity | ].
  split; [ vm_compute; reflexivity | ].
  intros (c & a & t & Hc & Ha & Ht & Hone).
  vm_compute in Hc, Ha, Ht.
  injection Hc as <-. injection Ha as <-. destruct t; discriminate Hone.
Qed.

Lemma active_implies_maintainedOrLTS_witness :
  @isNodeVersionMaintainedOrLTS Sample.published Runs.tested "14" = Ok true
  /\ @isNodeVersionMaintainedOrLTS Sample.published Runs.tested "4.0.0"
     = Ok true
  /\ @isNodeVersionMaintainedOrLTS Sample.published Runs.tested "4"
     = (maintained <- @isNodeVersionMaintained Sample.published Runs.tested
                        "4" ;;
        released <- @isNodeVersionReleased Sample.published Runs.tested
                      "4" ;;
        lts <- @isNodeVersionLTS Sample.published Runs.tested "4" ;;
        Ok (maintained || (released && lts))).
Proof.
  split; [ | split ].
  - apply (proj1 (@active_implies_maintainedOrLTS Sample.published
                    Runs.tested "14")).
    + intros meta start Hmeta Hlts.
      vm_compute in Hmeta. injection Hmeta as <-.
      vm_compute in Hlts. injection Hlts as <-.
      vm_compute. discriminate.
    + reflexivity.
  - apply (proj1 (proj2 (@active_implies_maintainedOrLTS Sample.published
                           Runs.tested "4.0.0"))
             (Schedule.Build "4" (utc 2015 9 8) (utc 2018 4 30)
                (Some (utc 2015 10 12)) (Some (utc 2017 4 1))
                (Some "Argon"))).
    + reflexivity.
    + vm_compute. reflexivity.
  - apply (proj2 (proj2 (@active_implies_maintainedOrLTS Sample.published
                           Runs.tested "4"))).
    + reflexivity.
    + reflexivity.
Defined.

(** The order of dates that the implication asks for is the order of the
    published schedule: every line of the sample that has an lts date has
    it on or after its start date. *)
Lemma published_lts_not_before_start :
  Forall (fun meta =>
            forall l, Schedule.lts meta = Some l -> Schedule.start meta <= l)
    Sample.schedule.
Proof.
  repeat constructor; intros l Hl; vm_compute in Hl;
    try discriminate Hl; injection Hl as <-; vm_compute; discriminate.
Qed.

(** The claim C2 as stated fails on the absolute identifier 4.0.0 on
    3 November 2020.  [isNodeVersionMaintainedOrLTS] reads the schedule
    entry of line 4, which is past its end and has an lts date, and
    returns true; [isNodeVersionMaintained] returns false and
    [isNodeVersionLTS] reads the release, which has no lts label, and
    returns false, so maintained OR (released AND lts) is false. *)
Lemma maintainedOrLTS_is_not_the_disjunction_at_4_0_0 :
  isAbsoluteVersion "4.0.0" = true
  /\ @isNodeVersionMaintainedOrLTS Sample.published Runs.tested "4.0.0"
     = Ok true
  /\ @isNodeVersionMaintained Sample.published Runs.tested "4.0.0"
     = Ok false
  /\ @isNodeVersionReleased Sample.published Runs.tested "4.0.0" = Ok true
  /\ @isNodeVersionLTS Sample.published Runs.tested "4.0.0" = Ok false
  /\ @isNodeVersionMaintainedOrLTS Sample.published Runs.tested "4.0.0"
     <> (maintained <- @isNodeVersionMaintained Sample.published Runs.tested
                         "4.0.0" ;;
         released <- @isNodeVersionReleased Sample.published Runs.tested
                       "4.0.0" ;;
         lts <- @isNodeVersionLTS Sample.published Runs.tested "4.0.0" ;;
         Ok (maintained || (released && lts))).
Proof.
  repeat split; try (vm_compute; reflexivity).
  vm_compute. discriminate.
Qed.

Lemma isNodeVersionLTS_exactly_witness :
  @isNodeVersionLTS Sample.published Runs.tested "4.2.0" = Ok true
  /\ returns (@isNodeVersionLTS Sample.published Runs.tested "4.0.0").
Proof.
  split.
  - apply (proj1 (@isNodeVersionLTS_exactly Sample.published Runs.tested
                    "4.2.0" eq_refl)).
    split.
    + eexists. split; [ reflexivity | ]. left. discriminate.
    + intros _ _. do 2 eexists. split; reflexivity.
  - apply (proj2 (@isNodeVersionLTS_exactly Sample.published Runs.tested
                    "4.0.0" eq_refl)).
    + intros _ _. eexists. reflexivity.
    + eexists. reflexivity.
Defined.

(** The claim C3 as stated fails on an absolute release of a historical
    line: 0.10.5 is at or after 0.8 and its release has no lts label, yet
    [isNodeVersionLTS] returns true, the label being asked for from 1 on. *)
Lemma isNodeVersionLTS_historical_release :
  isAbsoluteVersion "0.10.5" = true
  /\ @versionCompare Sample.published "0.10.5" "0.8" = 1
  /\ @versionCompare Sample.published "0.10.5" "1" = -1
  /\ @getNodeReleaseInformation Sample.published "0.10.5"
     = Ok (Release.Build (utc 2013 4 23) None)
  /\ @isNodeVersionLTS Sample.published Runs.tested "0.10.5" = Ok true
  /\ ~ @lts_as_specified Sample.published "0.10.5".
Proof.
  repeat split.
  intros [_ Hlab].
  destruct (Hlab eq_refl) as (info & label & Hinfo & Hl).
  - vm_compute. discriminate.
  - vm_compute in Hinfo. injection Hinfo as <-. discriminate Hl.
Qed.

Lemma dateless_entry_is_false_witness :
  @isNodeVersionActive Sample.published Runs.tested "13" = Ok false
  /\ @isNodeVersionMaintenance Sample.published Runs.tested "0.10" = Ok false.
Proof.
  split.
  - apply (proj1 (@dateless_entry_is_false Sample.published Runs.tested "13"
                    Runs.line13 eq_refl eq_refl)).
    + reflexivity.
    + intros Habs. discriminate Habs.
  - apply (proj2 (@dateless_entry_is_false Sample.published Runs.tested "0.10"
                    Runs.line0_10 eq_refl eq_refl)).
    reflexivity.
Defined.

(** The claim C7 as stated fails on an absolute identifier that the
    release repository does not know: its line 13 is in the schedule,
    without an lts date, and [isNodeVersionActive] throws the miss of the
    release lookup. *)
Lemma isNodeVersionActive_throws_on_unknown_release :
  preloaded Runs.tested = true
  /\ @getNodeScheduleInformationSafe Sample.published "13.99.0"
     = Ok (Some Runs.line13)
  /\ Schedule.lts Runs.line13 = None
  /\ @isNodeVersionActive Sample.published Runs.tested "13.99.0"
     = Throw "Unable to find the release information in the cache.".
Proof. repeat split. Qed.

Lemma latest_filters_throw_unpreloaded_witness :
  @isNodeVersionLatestActive Sample.published
    (snd (datetime (Some (utc 2020 11 3)) (initial 0))) "14" =
  Throw "You must await [preloadNodeVersions] prior to using the [isNodeVersionLatestActive] filter."
  /\ @isNodeVersionLatestCurrent Sample.published (initial 0) "14" =
     Throw "You must await [preloadNodeVersions] prior to using the [isNodeVersionLatestCurrent] filter."
  /\ @isNodeVersionLatestMaintenance Sample.published (initial 0) "14" =
     Throw "You must await [preloadNodeVersions] prior to using the [isNodeVersionLatestMaintenance] filter.".
Proof.
  destruct (@latest_filters_throw_unpreloaded Sample.published (initial 0) "14")
    as (_ & Hc & Hm & _).
  destruct (@latest_filters_throw_unpreloaded Sample.published
              (snd (datetime (Some (utc 2020 11 3)) (initial 0))) "14")
    as (_ & _ & _ & Hrun).
  split; [ apply Hrun; apply after_datetime, at_load | ].
  split; [ apply Hc; reflexivity | apply Hm; reflexivity ].
Defined.

Lemma preload_tested :
  @preloadNodeVersions Sample.published (initial (utc 2020 11 3))
  = (Ok tt, Runs.tested).
Proof. vm_compute. reflexivity. Qed.

Lemma preload_early :
  @preloadNodeVersions Sample.published (initial (utc 2015 3 1))
  = (Ok tt, Runs.early).
Proof. vm_compute. reflexivity. Qed.

(** With the lines listed newest first the latest active line is 12, the
    last one listed, not 14, the greatest. *)
Lemma latest_is_by_position :
  nodeVersionLatestActive (Sample.preloadedAt Sample.reversed (utc 2020 11 3))
  = Some "12"
  /\ @isNodeVersionActive Sample.reversed Runs.tested "14" = Ok true
  /\ @versionCompare Sample.reversed "14" "12" = 1.
Proof. repeat split; vm_compute; reflexivity. Qed.


Lemma latest_filter_throws_after_preload_witness :
  nodeVersionLatestActive Runs.early = None
  /\ @isNodeVersionLatestActive Sample.published Runs.early "0.12" =
     Throw "You must await [preloadNodeVersions] prior to using the [isNodeVersionLatestActive] filter.".
Proof.
  destruct (proj1 (@latest_filter_throws_after_preload Sample.published
                     (initial (utc 2015 3 1)) Runs.early preload_early))
    as [Hnone Hthrow].
  - intros v Hv.
    repeat (destruct Hv as [<- | Hv]; [ vm_compute; discriminate | ]).
    destruct Hv.
  - split; [ exact Hnone | ].
    change Runs.early with (snd (datetime None Runs.early)).
    apply Hthrow.
Defined.

Lemma filterNodeVersions_twice_is_conj_witness :
  @filterTwice Sample.published Runs.tested ["10"; "12"; "13"; "14"; "15"]
    Sample.activeOnly Sample.esmOnly
  = Ok ["12"; "14"]
  /\ @filterNodeVersions Sample.published Runs.tested
       ["10"; "12"; "13"; "14"; "15"]
       (Filters.conj Sample.activeOnly Sample.esmOnly)
     = Ok ["12"; "14"].
Proof.
  assert (Ha : Filters.booleanOnly Sample.activeOnly) by (repeat split).
  assert (He : Filters.booleanOnly Sample.esmOnly) by (repeat split).
  destruct (proj2 (@filterNodeVersions_twice_is_conj Sample.published
                     Runs.tested ["10"; "12"; "13"; "14"; "15"] _ _ Ha He))
    as [Htwice Hconj].
  - repeat (constructor; [ split; returns_by_computation | ]).
    constructor.
  - split; [ rewrite Htwice | rewrite Hconj ]; vm_compute; reflexivity.
Defined.

(** The claim C4 as stated fails where a selected predicate throws.  After
    the preload of 1 March 2015 no line is active, so filtering by
    [{ latestActive: true }] throws, and with it the filtering in two
    steps; the conjunction tests [esm] first, rejects 0.12 and returns the
    empty list. *)
Lemma filterTwice_throws_where_conj_returns :
  Filters.booleanOnly Sample.latestActiveOnly
  /\ Filters.booleanOnly Sample.esmOnly
  /\ @preloadNodeVersions Sample.published (initial (utc 2015 3 1))
     = (Ok tt, Runs.early)
  /\ @filterTwice Sample.published Runs.early ["0.12"]
       Sample.latestActiveOnly Sample.esmOnly
     = Throw "You must await [preloadNodeVersions] prior to using the [isNodeVersionLatestActive] filter."
  /\ @filterNodeVersions Sample.published Runs.early ["0.12"]
       (Filters.conj Sample.latestActiveOnly Sample.esmOnly)
     = Ok [].
Proof.
  split; [ repeat split | ].
  split; [ repeat split | ].
  split; [ exact preload_early | ].
  split; vm_compute; reflexivity.
Qed.

(** The conjunction is not the object spread: a key that the second
    configuration holds as [false] lifts, in the spread, the constraint of
    the first. *)
Lemma spread_is_not_conjunction :
  @filterTwice Sample.published Runs.tested ["10"; "14"]
    Sample.esmOnly Sample.esmOff
  = Ok ["14"]
  /\ @filterNodeVersions Sample.published Runs.tested ["10"; "14"]
       (Filters.conj Sample.esmOnly Sample.esmOff)
     = Ok ["14"]
  /\ @filterNodeVersions Sample.published Runs.tested ["10"; "14"]
       (Filters.spread Sample.esmOnly Sample.esmOff)
     = Ok ["10"; "14"].
Proof. repeat split; vm_compute; reflexivity. Qed.

(** * Further properties of the classifier *)

Section Lifecycle.

Context `{Collaborators}.

Lemma isNodeVersionActiveOrCurrent_known s v meta :
  preloaded s = true ->
  getNodeScheduleInformationSafe v = Ok (Some meta) ->
  isNodeVersionActiveOrCurrent s v =
  Ok (window (Some (Schedule.start meta))
        (or_date (Schedule.maintenance meta) (Some (Schedule.end_ meta)))
        (now s)).
Proof.
  intros Hp Hm. unfold isNodeVersionActiveOrCurrent. now rewrite Hp, Hm.
Qed.

Lemma isNodeVersionMaintained_known s v meta :
  preloaded s = true ->
  getNodeScheduleInformationSafe v = Ok (Some meta) ->
  isNodeVersionMaintained s v =
  Ok (window (Some (Schedule.start meta)) (Some (Schedule.end_ meta)) (now s)).
Proof.
  intros Hp Hm. unfold isNodeVersionMaintained. now rewrite Hp, Hm.
Qed.

Lemma isNodeVersionMaintainedOrLTS_known s v meta :
  preloaded s = true ->
  getNodeScheduleInformationSafe v = Ok (Some meta) ->
  isNodeVersionMaintainedOrLTS s v =
  Ok ((Schedule.start meta <=? now s)
      && ((now s <=? Schedule.end_ meta) || lts_or_historical meta)).
Proof.
  intros Hp Hm. unfold isNodeVersionMaintainedOrLTS. rewrite Hp, Hm. simpl.
  rewrite Z.geb_leb.
  destruct (Schedule.start meta <=? now s); simpl; [ | reflexivity ].
  destruct (now s <=? Schedule.end_ meta); reflexivity.
Qed.

Lemma isNodeVersionReleased_line s v meta :
  preloaded s = true ->
  isAbsoluteVersion v = false ->
  getNodeScheduleInformationSafe v = Ok (Some meta) ->
  isNodeVersionReleased s v = Ok (Schedule.start meta <=? now s).
Proof.
  intros Hp Habs Hm. unfold isNodeVersionReleased.
  rewrite Hp, Habs, Hm. simpl. now rewrite Z.geb_leb.
Qed.

(** X1.  Before a preload the eight predicates that read the clock throw, each
    its own error, and with them the status and the two filters over the
    repositories; no repository is consulted, whatever the version and the
    filters are. *)
Theorem everything_throws_before_preload s v f :
  preloaded s = false ->
  isNodeVersionActive s v = Throw (unpreloaded "isNodeVersionActive")
  /\ isNodeVersionActiveOrCurrent s v
     = Throw (unpreloaded "isNodeVersionActiveOrCurrent")
  /\ isNodeVersionReleased s v = Throw (unpreloaded "isNodeVersionReleased")
  /\ isNodeVersionCurrent s v = Throw (unpreloaded "isNodeVersionCurrent")
  /\ isNodeVersionLTS s v = Throw (unpreloaded "isNodeVersionLTS")
  /\ isNodeVersionMaintained s v
     = Throw (unpreloaded "isNodeVersionMaintained")
  /\ isNodeVersionMaintainedOrLTS s v
     = Throw (unpreloaded "isNodeVersionMaintainedOrLTS")
  /\ isNodeVersionMaintenance s v
     = Throw (unpreloaded "isNodeVersionMaintenance")
  /\ getNodeVersionStatus s v = Throw (unpreloaded "isNodeVersionActive")
  /\ filterSignificantNodeVersions s f
     = Throw "You must await [preloadNodeVersions] prior to using [filterSignificantNodeVersions]."
  /\ filterAbsoluteNodeVersions s f
     = Throw "You must await [preloadNodeVersions] prior to using [filterAbsoluteNodeVersions].".
Proof.
  intros Hp.
  unfold getNodeVersionStatus, isNodeVersionActive,
    isNodeVersionActiveOrCurrent, isNodeVersionReleased, isNodeVersionCurrent,
    isNodeVersionLTS, isNodeVersionMaintained, isNodeVersionMaintainedOrLTS,
    isNodeVersionMaintenance, filterSignificantNodeVersions,
    filterAbsoluteNodeVersions.
  rewrite Hp. simpl. repeat split.
Qed.

(** X2.  After a preload, a version that is not absolute and is before 0.8, or
    is 0.9 or 0.11, is nothing at all: the eight predicates return false,
    whatever the repositories hold, also where their lookup would throw. *)
Theorem untracked_line_is_nothing s v :
  preloaded s = true ->
  isAbsoluteVersion v = false ->
  untracked v ->
  isNodeVersionActive s v = Ok false
  /\ isNodeVersionActiveOrCurrent s v = Ok false
  /\ isNodeVersionReleased s v = Ok false
  /\ isNodeVersionCurrent s v = Ok false
  /\ isNodeVersionLTS s v = Ok false
  /\ isNodeVersionMaintained s v = Ok false
  /\ isNodeVersionMaintainedOrLTS s v = Ok false
  /\ isNodeVersionMaintenance s v = Ok false.
Proof.
  intros Hp Habs Hu. apply safe_untracked in Hu.
  unfold isNodeVersionActive, isNodeVersionActiveOrCurrent,
    isNodeVersionReleased, isNodeVersionCurrent, isNodeVersionLTS,
    isNodeVersionMaintained, isNodeVersionMaintainedOrLTS,
    isNodeVersionMaintenance.
  rewrite Hp, Habs, Hu. simpl. repeat split.
Qed.

(** X3.  On an entry whose dates are in order, and for an identifier that is a
    line or a labelled release, active-or-current is the disjunction of
    current and active. *)
Theorem activeOrCurrent_is_current_or_active s v meta :
  preloaded s = true ->
  getNodeScheduleInformationSafe v = Ok (Some meta) ->
  (isAbsoluteVersion v = true -> labelled v) ->
  in_order meta ->
  exists c a,
    isNodeVersionCurrent s v = Ok c
    /\ isNodeVersionActive s v = Ok a
    /\ isNodeVersionActiveOrCurrent s v = Ok (c || a).
Proof.
  intros Hp Hmeta Hlab Hord.
  rewrite (isNodeVersionCurrent_known _ _ _ Hp Hmeta),
    (isNodeVersionActive_known _ _ _ Hp Hlab Hmeta),
    (isNodeVersionActiveOrCurrent_known _ _ _ Hp Hmeta).
  do 2 eexists. repeat (split; [ reflexivity | ]). f_equal.
  unfold in_order in Hord. unfold window, or_date.
  destruct (Schedule.lts meta) as [l | ],
    (Schedule.maintenance meta) as [m | ]; simpl;
    try (now rewrite orb_false_r); lia.
Qed.

(** X4.  On an entry whose dates are in order, and for an identifier that is a
    line or a labelled release, maintained is Current || Active ||
    Maintenance, as its doc comment has it. *)
Theorem maintained_is_union_of_phases s v meta :
  preloaded s = true ->
  getNodeScheduleInformationSafe v = Ok (Some meta) ->
  (isAbsoluteVersion v = true -> labelled v) ->
  in_order meta ->
  exists c a t,
    isNodeVersionCurrent s v = Ok c
    /\ isNodeVersionActive s v = Ok a
    /\ isNodeVersionMaintenance s v = Ok t
    /\ isNodeVersionMaintained s v = Ok (c || a || t).
Proof.
  intros Hp Hmeta Hlab Hord.
  rewrite (isNodeVersionCurrent_known _ _ _ Hp Hmeta),
    (isNodeVersionActive_known _ _ _ Hp Hlab Hmeta),
    (isNodeVersionMaintenance_known _ _ _ Hp Hmeta),
    (isNodeVersionMaintained_known _ _ _ Hp Hmeta).
  do 3 eexists. repeat (split; [ reflexivity | ]). f_equal.
  unfold in_order in Hord. unfold window, or_date.
  destruct (Schedule.lts meta) as [l | ],
    (Schedule.maintenance meta) as [m | ]; simpl;
    rewrite ?orb_false_r; try reflexivity; lia.
Qed.

(** X5.  Whatever the dates of the entry: a maintained version is
    maintained-or-LTS, and a line that is current, active-or-current,
    maintained or maintained-or-LTS is released. *)
Theorem lifecycle_implies_released s v :
  (isNodeVersionMaintained s v = Ok true ->
   isNodeVersionMaintainedOrLTS s v = Ok true)
  /\ (isAbsoluteVersion v = false ->
      isNodeVersionCurrent s v = Ok true
      \/ isNodeVersionActiveOrCurrent s v = Ok true
      \/ isNodeVersionMaintained s v = Ok true
      \/ isNodeVersionMaintainedOrLTS s v = Ok true ->
      isNodeVersionReleased s v = Ok true).
Proof.
  split.
  - intros Hm. unfold isNodeVersionMaintained in Hm. known_entry Hm.
    rewrite (isNodeVersionMaintainedOrLTS_known s v meta); try assumption.
    unfold window in Hm. injection Hm as Hm.
    apply andb_true_iff in Hm. destruct Hm as [-> ->]. reflexivity.
  - intros Habs Hany.
    assert (Hstart : exists meta,
               preloaded s = true
               /\ getNodeScheduleInformationSafe v = Ok (Some meta)
               /\ Schedule.start meta <= now s).
    { destruct Hany as [Hc | [Hc | [Hc | Hc]]].
      - unfold isNodeVersionCurrent in Hc. known_entry Hc.
        exists meta. repeat split. unfold window in Hc.
        destruct (or_date _ _); [ | discriminate ].
        injection Hc as Hc. apply andb_true_iff in Hc. lia.
      - unfold isNodeVersionActiveOrCurrent in Hc. known_entry Hc.
        exists meta. repeat split. unfold window in Hc.
        destruct (or_date _ _); [ | discriminate ].
        injection Hc as Hc. apply andb_true_iff in Hc. lia.
      - unfold isNodeVersionMaintained in Hc. known_entry Hc.
        exists meta. repeat split. unfold window in Hc.
        injection Hc as Hc. apply andb_true_iff in Hc. lia.
      - unfold isNodeVersionMaintainedOrLTS in Hc. known_entry Hc.
        exists meta. repeat split.
        destruct (Z.geb_spec (now s) (Schedule.start meta));
          simpl in Hc; [ lia | discriminate ]. }
    destruct Hstart as (meta & Hp & Hmeta & Hle).
    rewrite (isNodeVersionReleased_line s v meta Hp Habs Hmeta).
    f_equal. lia.
Qed.

(** X6.  A version that is active is LTS, whatever its entry: the lts date that
    opens the active window is what the LTS rule asks for, and so is the
    label of an absolute release. *)
Theorem active_implies_LTS s v :
  isNodeVersionActive s v = Ok true -> isNodeVersionLTS s v = Ok true.
Proof.
  unfold isNodeVersionActive, isNodeVersionLTS.
  destruct (preloaded s); simpl; [ | discriminate ].
  destruct (isAbsoluteVersion v); simpl.
  - destruct (getNodeReleaseInformation v) as [info | e]; simpl;
      [ | discriminate ].
    destruct (Release.lts info); simpl; [ | discriminate ].
    intros Ha.
    assert (Hs : lts_of_schedule v = Ok true).
    { unfold lts_of_schedule.
      destruct (getNodeScheduleInformationSafe v) as [[meta | ] | e];
        simpl in *; try discriminate.
      unfold window in Ha. unfold lts_or_historical.
      destruct (Schedule.lts meta); [ reflexivity | discriminate ]. }
    destruct (versionCompare v "1" >=? 0); simpl; exact Hs.
  - destruct (getNodeScheduleInformationSafe v) as [[meta | ] | e];
      simpl; try discriminate.
    unfold window, lts_or_historical.
    destruct (Schedule.lts meta); [ reflexivity | discriminate ].
Qed.

End Lifecycle.

Section Clock.

Context `{Collaborators}.

(** X8.  Moving the clock forward never takes a release back, nor the
    maintained-or-LTS standing of a line with an lts date or without a
    maintenance date: once true they are true at every later instant. *)
Theorem released_is_permanent s v t :
  now s <= t ->
  (isNodeVersionReleased s v = Ok true ->
   isNodeVersionReleased (snd (datetime (Some t) s)) v = Ok true)
  /\ (isNodeVersionLTS s v = Ok true ->
      isNodeVersionMaintainedOrLTS s v = Ok true ->
      isNodeVersionMaintainedOrLTS (snd (datetime (Some t) s)) v = Ok true).
Proof.
  intros Ht. split.
  - unfold isNodeVersionReleased. simpl.
    destruct (preloaded s); simpl; [ | discriminate ].
    destruct (isAbsoluteVersion v).
    + destruct (getNodeReleaseInformation v) as [info | e]; simpl;
        [ | discriminate ].
      intros Hr. injection Hr as Hr. f_equal. lia.
    + destruct (getNodeScheduleInformationSafe v) as [[meta | ] | e];
        simpl; try discriminate.
      intros Hr. injection Hr as Hr. f_equal. lia.
  - intros Hlts Hm.
    assert (Hl : lts_of_schedule v = Ok true).
    { unfold isNodeVersionLTS in Hlts.
      destruct (preloaded s); simpl in Hlts; [ | discriminate ].
      fold (lts_of_schedule v) in Hlts.
      destruct (isAbsoluteVersion v && (versionCompare v "1" >=? 0));
        simpl in Hlts; [ | exact Hlts ].
      destruct (getNodeReleaseInformation v) as [info | e]; simpl in Hlts;
        [ | discriminate ].
      destruct (Release.lts info); simpl in Hlts;
        [ exact Hlts | discriminate ]. }
    unfold lts_of_schedule in Hl.
    unfold isNodeVersionMaintainedOrLTS in *. simpl.
    destruct (preloaded s); simpl in *; [ | discriminate ].
    destruct (getNodeScheduleInformationSafe v) as [[meta | ] | e];
      simpl in *; try discriminate.
    injection Hl as ->.
    destruct (Z.geb_spec (now s) (Schedule.start meta));
      simpl in Hm; [ | discriminate ].
    replace (t >=? Schedule.start meta) with true by lia. simpl.
    destruct (t <=? Schedule.end_ meta); reflexivity.
Qed.

(** X9.  Once the clock is past the end date of an entry whose dates are in
    order, the line is out of every phase for good: at every later instant
    current, active, active-or-current, maintenance and maintained are
    false, and maintained-or-LTS is what the LTS rule says of the entry. *)
Theorem end_of_life_is_final s v meta t :
  preloaded s = true ->
  getNodeScheduleInformationSafe v = Ok (Some meta) ->
  (isAbsoluteVersion v = true -> returns (getNodeReleaseInformation v)) ->
  in_order meta ->
  Schedule.end_ meta < now s ->
  now s <= t ->
  let s' := snd (datetime (Some t) s) in
  isNodeVersionCurrent s' v = Ok false
  /\ isNodeVersionActive s' v = Ok false
  /\ isNodeVersionActiveOrCurrent s' v = Ok false
  /\ isNodeVersionMaintenance s' v = Ok false
  /\ isNodeVersionMaintained s' v = Ok false
  /\ isNodeVersionMaintainedOrLTS s' v = Ok (lts_or_historical meta).
Proof.
  intros Hp Hmeta Hrel Hord Hend Ht s'.
  assert (Hp' : preloaded s' = true) by exact Hp.
  assert (Hnow : now s' = t) by reflexivity.
  assert (Hstart : Schedule.start meta <= t).
  { unfold in_order in Hord.
    destruct (Schedule.lts meta), (Schedule.maintenance meta); lia. }
  rewrite (isNodeVersionCurrent_known _ _ _ Hp' Hmeta),
    (isNodeVersionActiveOrCurrent_known _ _ _ Hp' Hmeta),
    (isNodeVersionMaintenance_known _ _ _ Hp' Hmeta),
    (isNodeVersionMaintained_known _ _ _ Hp' Hmeta),
    (isNodeVersionMaintainedOrLTS_known _ _ _ Hp' Hmeta), Hnow.
  unfold in_order in Hord. unfold window, or_date.
  repeat split.
  - destruct (Schedule.lts meta), (Schedule.maintenance meta);
      f_equal; lia.
  - unfold isNodeVersionActive. rewrite Hp', Hmeta. simpl.
    destruct (isAbsoluteVersion v).
    + destruct (Hrel eq_refl) as [info ->]. simpl.
      destruct (Release.lts info); simpl; [ | reflexivity ].
      unfold window, or_date.
      destruct (Schedule.lts meta), (Schedule.maintenance meta);
        f_equal; lia.
    + simpl. unfold window, or_date.
      destruct (Schedule.lts meta), (Schedule.maintenance meta);
        f_equal; lia.
  - destruct (Schedule.lts meta), (Schedule.maintenance meta);
      f_equal; lia.
  - destruct (Schedule.lts meta), (Schedule.maintenance meta);
      f_equal; lia.
  - f_equal. lia.
  - f_equal. replace (t <=? Schedule.end_ meta) with false by lia.
    replace (Schedule.start meta <=? t) with true by lia. reflexivity.
Qed.

End Clock.

Section Preloading.

Context `{Collaborators}.

(** X10.  [datetime] sets the clock and reads it back, and the last setting
    wins; it leaves the aggregates alone, so the three latest predicates
    answer as they did before the clock was moved, until the next
    preload. *)
Theorem datetime_moves_only_the_clock s when t t' v :
  fst (datetime None (snd (datetime (Some t) s))) = t
  /\ snd (datetime (Some t') (snd (datetime (Some t) s)))
     = snd (datetime (Some t') s)
  /\ datetime None s = (now s, s)
  /\ isNodeVersionLatestActive (snd (datetime when s)) v
     = isNodeVersionLatestActive s v
  /\ isNodeVersionLatestCurrent (snd (datetime when s)) v
     = isNodeVersionLatestCurrent s v
  /\ isNodeVersionLatestMaintenance (snd (datetime when s)) v
     = isNodeVersionLatestMaintenance s v.
Proof.
  unfold isNodeVersionLatestActive, isNodeVersionLatestCurrent,
    isNodeVersionLatestMaintenance.
  destruct (datetime_keeps_latest when s) as (-> & -> & -> & _).
  repeat split.
Qed.

Lemma last_holds_listed {A : Type} (p : A -> result bool) (l : list A)
  (x : A) :
  last (filter (fun v => holds (p v)) l) = Some x ->
  In x l /\ p x = Ok true.
Proof.
  intros Hx. apply last_holds_position in Hx.
  destruct Hx as (l1 & l2 & -> & Hp & _).
  split; [ apply in_elt | exact Hp ].
Qed.

(** X11.  After a preload that completes, an aggregate that is defined is one
    of the schedule identifiers and is in its phase at the clock of the
    preload; its latest predicate accepts it when the comparator finds it
    equal to itself. *)
Theorem latest_is_listed_and_in_phase s s' x :
  preloadNodeVersions s = (Ok tt, s') ->
  (nodeVersionLatestCurrent s' = Some x ->
   In x getNodeScheduleIdentifiers
   /\ isNodeVersionCurrent s' x = Ok true
   /\ (versionCompare x x = 0 -> isNodeVersionLatestCurrent s' x = Ok true))
  /\ (nodeVersionLatestActive s' = Some x ->
      In x getNodeScheduleIdentifiers
      /\ isNodeVersionActive s' x = Ok true
      /\ (versionCompare x x = 0 -> isNodeVersionLatestActive s' x = Ok true))
  /\ (nodeVersionLatestMaintenance s' = Some x ->
      In x getNodeScheduleIdentifiers
      /\ isNodeVersionMaintenance s' x = Ok true
      /\ (versionCompare x x = 0 ->
          isNodeVersionLatestMaintenance s' x = Ok true)).
Proof.
  intros Hrun.
  destruct (preload_scans _ _ Hrun)
    as (current & active & maintenance & [Hc' Hc] & [Ha' Ha] & [Hm' Hm]).
  rewrite Hc' in Hc. rewrite Ha' in Ha. rewrite Hm' in Hm.
  unfold isNodeVersionLatestCurrent, isNodeVersionLatestActive,
    isNodeVersionLatestMaintenance.
  split; [ | split ]; intros Hx.
  - rewrite Hx in *. symmetry in Hc. apply last_holds_listed in Hc.
    destruct Hc as [Hin Hp]. repeat split; try assumption.
    intros ->. reflexivity.
  - rewrite Hx in *. symmetry in Ha. apply last_holds_listed in Ha.
    destruct Ha as [Hin Hp]. repeat split; try assumption.
    intros ->. reflexivity.
  - rewrite Hx in *. symmetry in Hm. apply last_holds_listed in Hm.
    destruct Hm as [Hin Hp]. repeat split; try assumption.
    intros ->. reflexivity.
Qed.

(** X12.  A preload that completed can be run again at the same clock: it
    completes and leaves the state as it is. *)
Theorem preload_again_changes_nothing s s' :
  preloadNodeVersions s = (Ok tt, s') ->
  preloadNodeVersions s' = (Ok tt, s').
Proof.
  intros Hrun.
  destruct (preload_Ok _ _ Hrun)
    as (current & active & maintenance & Hc & Ha & Hm & Hs).
  assert (Hfetch : preloadNodeSchedule = Ok tt /\ preloadNodeReleases = Ok tt).
  { revert Hrun. unfold preloadNodeVersions, andThen, await.
    destruct preloadNodeSchedule as [[] | e]; [ | discriminate ].
    destruct preloadNodeReleases as [[] | e]; [ | discriminate ].
    now split. }
  destruct Hfetch as [Hsched Hrel].
  assert (Hp : preloaded s' = true) by (rewrite Hs; reflexivity).
  unfold preloadNodeVersions, andThen, await, reading, assign.
  rewrite Hsched, Hrel.
  rewrite (filterM_ext (fun v : NodeVersionIdentifier =>
                          isNodeVersionCurrent (set_preloaded true s') v)
             (fun v : NodeVersionIdentifier => isNodeVersionCurrent s' v)), Hc.
  2:{ intros v. apply isNodeVersionCurrent_view. split; [ | reflexivity ].
      simpl. now rewrite Hp. }
  rewrite (filterM_ext (fun v : NodeVersionIdentifier =>
                          isNodeVersionActive _ v) (fun v :
                          NodeVersionIdentifier => isNodeVersionActive s' v)),
                          Ha.
  2:{ intros v. apply isNodeVersionActive_view. split; [ | reflexivity ].
      simpl. now rewrite Hp. }
  rewrite (filterM_ext (fun v : NodeVersionIdentifier =>
                          isNodeVersionMaintenance _ v)
             (fun v : NodeVersionIdentifier =>
                isNodeVersionMaintenance s' v)), Hm.
  2:{ intros v. apply isNodeVersionMaintenance_view.
      split; [ | reflexivity ]. simpl. now rewrite Hp. }
  f_equal. rewrite Hs. reflexivity.
Qed.

End Preloading.

Section StatusRecord.

Context `{Collaborators}.

(** X13.  When [getNodeVersionStatus] returns, each flag of the record is what
    [isNodeVersion] answers to the configuration that holds that flag
    alone as [true]; the same key as [false] admits the version whatever
    the flag is. *)
Theorem status_flag_is_single_filter s v status flag :
  getNodeVersionStatus s v = Ok status ->
  isNodeVersion s v (only flag true) = Ok (Status.get flag status)
  /\ isNodeVersion s v (only flag false) = Ok true.
Proof.
  unfold getNodeVersionStatus. intros Hst.
  destruct (isNodeVersionActive s v) as [b1 | ] eqn:H1;
    simpl in Hst; [ | discriminate ].
  destruct (isNodeVersionActiveOrCurrent s v) as [b2 | ] eqn:H2;
    simpl in Hst; [ | discriminate ].
  destruct (isNodeVersionCurrent s v) as [b3 | ] eqn:H3;
    simpl in Hst; [ | discriminate ].
  destruct (isNodeVersionLatestActive s v) as [b5 | ] eqn:H5;
    simpl in Hst; [ | discriminate ].
  destruct (isNodeVersionLatestCurrent s v) as [b6 | ] eqn:H6;
    simpl in Hst; [ | discriminate ].
  destruct (isNodeVersionLatestMaintenance s v) as [b7 | ] eqn:H7;
    simpl in Hst; [ | discriminate ].
  destruct (isNodeVersionLTS s v) as [b8 | ] eqn:H8;
    simpl in Hst; [ | discriminate ].
  destruct (isNodeVersionMaintained s v) as [b9 | ] eqn:H9;
    simpl in Hst; [ | discriminate ].
  destruct (isNodeVersionMaintainedOrLTS s v) as [b10 | ] eqn:H10;
    simpl in Hst; [ | discriminate ].
  destruct (isNodeVersionMaintenance s v) as [b11 | ] eqn:H11;
    simpl in Hst; [ | discriminate ].
  destruct (isNodeVersionReleased s v) as [b12 | ] eqn:H12;
    simpl in Hst; [ | discriminate ].
  injection Hst as <-.
  split; [ | destruct flag; reflexivity ].
  rewrite (isNodeVersion_left s v (only flag true) (only flag true))
    by (destruct flag; repeat split).
  unfold lines. rewrite H1, H2, H3, H5, H6, H7, H8, H9, H10, H11, H12.
  generalize (isNodeVersionESM v) (isNodeVersionVercel v). intros b4 b13.
  destruct flag; cbn;
    match goal with
    | |- (if ?b then _ else _) = _ => destruct b; reflexivity
    end.
Qed.

(** X14.  For a version that is not absolute, [getNodeVersionStatus] returns
    exactly when the module is preloaded, the schedule lookup returns and
    all three aggregates are defined. *)
Theorem status_returns_exactly s v :
  isAbsoluteVersion v = false ->
  (returns (getNodeVersionStatus s v) <->
   preloaded s = true
   /\ returns (getNodeScheduleInformationSafe v)
   /\ nodeVersionLatestActive s <> None
   /\ nodeVersionLatestCurrent s <> None
   /\ nodeVersionLatestMaintenance s <> None).
Proof.
  intros Habs.
  unfold getNodeVersionStatus, isNodeVersionActive,
    isNodeVersionActiveOrCurrent, isNodeVersionCurrent, isNodeVersionLTS,
    isNodeVersionMaintained, isNodeVersionMaintainedOrLTS,
    isNodeVersionMaintenance, isNodeVersionReleased,
    isNodeVersionLatestActive, isNodeVersionLatestCurrent,
    isNodeVersionLatestMaintenance, returns.
  rewrite Habs.
  destruct (preloaded s); simpl.
  - destruct (getNodeScheduleInformationSafe v) as [[meta | ] | e]; simpl.
    + destruct (nodeVersionLatestActive s),
        (nodeVersionLatestCurrent s), (nodeVersionLatestMaintenance s);
        simpl;
        try (split; [ intros [st Hst]; discriminate Hst
                    | intros (_ & _ & Ha & Hc & Hm); congruence ]).
      destruct (now s >=? Schedule.start meta); simpl;
        [ destruct (now s <=? Schedule.end_ meta); simpl | ];
        (split; [ intros _; repeat split; (now eexists) || discriminate
                | intros _; now eexists ]).
    + destruct (nodeVersionLatestActive s),
        (nodeVersionLatestCurrent s), (nodeVersionLatestMaintenance s);
        simpl;
        try (split; [ intros [st Hst]; discriminate Hst
                    | intros (_ & _ & Ha & Hc & Hm); congruence ]).
      split; [ intros _; repeat split; (now eexists) || discriminate
             | intros _; now eexists ].
    + split; [ intros [st Hst]; discriminate Hst
             | intros (_ & [m Hm] & _); discriminate Hm ].
  - split; [ intros [st Hst]; discriminate Hst
           | intros (Hp & _); discriminate Hp ].
Qed.

End StatusRecord.

(** * Further properties of the filter engine *)

Lemma with_param_verdict {K : Type} (truthy : K -> bool) (key : option K)
  (test : K -> bool) (rest : result bool) :
  with_param truthy key test rest =
  if match key with
     | Some k => negb (truthy k) || test k
     | None => true
     end
  then rest else Ok false.
Proof.
  destruct key as [k | ]; [ | reflexivity ].
  unfold with_param, unless_fails. simpl.
  destruct (truthy k), (test k); reflexivity.
Qed.

Lemma filterM_Throw {A : Type} (p : A -> result bool) (l : list A)
  (e : Error) :
  filterM p l = Throw e <->
  exists before x after,
    l = before ++ x :: after
    /\ Forall (fun y => returns (p y)) before
    /\ p x = Throw e.
Proof.
  split.
  - induction l as [ | y l IH]; simpl; [ discriminate | ].
    destruct (p y) as [b | e'] eqn:Hy; simpl.
    + destruct (filterM p l) as [r | e'] eqn:Hl; simpl; [ discriminate | ].
      intros He. injection He as ->.
      destruct (IH eq_refl) as (before & x & after & -> & Hall & Hx).
      exists (y :: before), x, after. repeat split; try assumption.
      constructor; [ now exists b | assumption ].
    + intros He. injection He as ->.
      exists [], y, l. repeat split; [ constructor | assumption ].
  - intros (before & x & after & -> & Hall & Hx).
    induction Hall as [ | y before [b Hy] _ IH]; simpl.
    + now rewrite Hx.
    + rewrite Hy. simpl. now rewrite IH.
Qed.

Section Filtering.

Context `{Collaborators}.

(** X15.  The parametric keys decide first.  A version that one of them rejects
    is rejected without a look at the boolean keys, so without the error
    one of those could throw; a version they pass is judged by the boolean
    keys alone. *)
Theorem parametric_keys_decide_first s v f :
  isNodeVersion s v f =
  if parametric v f then isNodeVersion s v (boolean_part f) else Ok false.
Proof.
  unfold isNodeVersion at 1. rewrite !with_param_verdict.
  unfold parametric.
  change (isNodeVersion s v (boolean_part f)) with
    (checks (map left_line (lines s v f f))).
  set (rest := checks (map left_line (lines s v f f))).
  change (unless_fails (truthy_flag (Filters.active f)) _ _) with rest.
  destruct (Filters.these f) as [these | ]; [ destruct (isNodeVersionThese _ _) | ];
    destruct (Filters.between f) as [tuple | ];
    try destruct (isNodeVersionBetween _ _);
    destruct (Filters.lte f) as [lte | ];
    try destruct (negb (truthy_input lte) || _);
    destruct (Filters.gte f) as [gte | ];
    try destruct (negb (truthy_input gte) || _);
    destruct (Filters.range f) as [range | ];
    try destruct (negb (truthy_string range) || _);
    reflexivity.
Qed.

(** X16.  A configuration none of whose keys is truthy admits every version, in
    every state and without a preload: a key set to [false], to the empty
    string or to the number zero filters nothing, and filtering by such a
    configuration returns the list as it is. *)
Theorem falsy_keys_filter_nothing s f versions v :
  all_falsy f ->
  isNodeVersion s v f = Ok true
  /\ filterNodeVersions s versions f = Ok versions.
Proof.
  intros (Hthese & Hbetween & Hlte & Hgte & Hrange & Hflags).
  assert (Hv : forall v, isNodeVersion s v f = Ok true).
  { intros v'. unfold isNodeVersion. rewrite !with_param_verdict.
    rewrite Hthese, Hbetween.
    assert (Hparam : forall (K : Type) (truthy : K -> bool)
                            (key : option K) (test : K -> bool),
               match key with Some k => truthy k | None => false end = false ->
               match key with
               | Some k => negb (truthy k) || test k
               | None => true
               end = true).
    { intros K truthy [k | ] test Hk; [ | reflexivity ]. now rewrite Hk. }
    rewrite (Hparam _ truthy_input _ _ Hlte), (Hparam _ truthy_input _ _ Hgte),
      (Hparam _ truthy_string _ _ Hrange).
    rewrite !Hflags; simpl; auto 20. }
  split; [ apply Hv | ].
  unfold filterNodeVersions.
  induction versions as [ | x versions IH]; simpl; [ reflexivity | ].
  now rewrite Hv, IH.
Qed.

(** X17.  [{ between: [a, b] }] filters as [{ gte: a, lte: b }] does when
    both bounds are truthy: neither is the empty string, the number [0] or
    [NaN].  A falsy bound is skipped as a [gte] or [lte] key and still
    compared inside a [between] tuple, so there the two configurations can
    differ. *)
Theorem between_is_gte_and_lte s v f (a b : NodeVersionInput) :
  Filters.between f = None ->
  Filters.lte f = None ->
  Filters.gte f = None ->
  truthy_input a = true ->
  truthy_input b = true ->
  isNodeVersion s v (with_between (a, b) f)
  = isNodeVersion s v (with_bounds a b f).
Proof.
  intros Hbetween Hlte Hgte Ha Hb.
  unfold isNodeVersion, with_between, with_bounds.
  cbn [Filters.these Filters.between Filters.lte Filters.gte Filters.range
       Filters.active Filters.activeOrCurrent Filters.current Filters.esm
       Filters.latestActive Filters.latestCurrent Filters.latestMaintenance
       Filters.lts Filters.maintained Filters.maintainedOrLTS
       Filters.maintenance Filters.released Filters.vercel].
  rewrite Hbetween, Hlte, Hgte, !with_param_verdict, Ha, Hb.
  set (rest := unless_fails (truthy_flag (Filters.active f)) _ _).
  unfold isNodeVersionBetween, isNodeVersionLTE, isNodeVersionGTE.
  cbn [fst snd negb orb].
  destruct (match Filters.these f with
            | Some k => isNodeVersionThese v k
            | None => true
            end),
    (versionCompare v a >=? 0), (versionCompare v b <=? 0),
    (match Filters.range f with
     | Some k => negb (truthy_string k) || isNodeVersionWithinRange v k
     | None => true
     end); reflexivity.
Qed.

(** X18.  [isNodeVersionThese] answers by the first entry of the list that
    compares equal to the version, and by its truthiness: a first match
    that is the number [0], [NaN] or the empty string answers [false].  So
    the empty list admits nothing, a true answer has a truthy match, and
    on a list of truthy entries the answer is whether some entry compares
    equal. *)
Theorem isNodeVersionThese_first_match v these :
  isNodeVersionThese v [] = false
  /\ (forall before seek after,
         these = before ++ seek :: after ->
         Forall (fun other => versionCompare v other <> 0) before ->
         versionCompare v seek = 0 ->
         isNodeVersionThese v these = truthy_input seek)
  /\ (isNodeVersionThese v these = true ->
      exists seek,
        In seek these /\ versionCompare v seek = 0
        /\ truthy_input seek = true)
  /\ ((forall seek, In seek these -> truthy_input seek = true) ->
      (isNodeVersionThese v these = true <->
       exists seek, In seek these /\ versionCompare v seek = 0)).
Proof.
  unfold isNodeVersionThese.
  split; [ reflexivity | ]. split; [ | split ].
  - intros before seek after -> Hbefore Hseek.
    induction Hbefore as [ | other before Hother _ IH]; simpl.
    + now rewrite Hseek.
    + apply Z.eqb_neq in Hother. now rewrite Hother.
  - destruct (find _ these) as [seek | ] eqn:Hfind; [ | discriminate ].
    apply find_some in Hfind. destruct Hfind as [Hin Heq].
    intros Ht. exists seek. repeat split; [ assumption | lia | assumption ].
  - intros Htruthy. split.
    + destruct (find _ these) as [seek | ] eqn:Hfind; [ | discriminate ].
      apply find_some in Hfind. destruct Hfind as [Hin Heq].
      intros _. exists seek. split; [ assumption | lia ].
    + intros (seek & Hin & Heq).
      destruct (find _ these) as [found | ] eqn:Hfind.
      * apply find_some in Hfind. destruct Hfind as [Hfound _].
        now apply Htruthy.
      * apply (find_none _ _ Hfind) in Hin. simpl in Hin. lia.
Qed.

(** X19.  The outcome of [filterNodeVersions].  It returns exactly when
    [isNodeVersion] returns on every version of the list, and then the
    list of those it admits, in their order; it throws exactly the error
    of the first version on which [isNodeVersion] throws. *)
Theorem filterNodeVersions_outcome s versions f :
  (forall kept,
      filterNodeVersions s versions f = Ok kept <->
      Forall (fun v : NodeVersionIdentifier =>
                returns (isNodeVersion s v f)) versions
      /\ kept = filter (fun v : NodeVersionIdentifier =>
                          holds (isNodeVersion s v f)) versions)
  /\ (forall e,
         filterNodeVersions s versions f = Throw e <->
         exists before v after,
           versions = before ++ v :: after
           /\ Forall (fun y : NodeVersionIdentifier =>
                        returns (isNodeVersion s y f)) before
           /\ isNodeVersion s v f = Throw e).
Proof.
  unfold filterNodeVersions. split.
  - intros kept. split.
    + intros Hk. apply filterM_Ok in Hk. tauto.
    + intros [Hall ->]. now apply filterM_total.
  - intros e. apply filterM_Throw.
Qed.

(** X20.  Filtering what a filtering returned, by the same configuration,
    returns it unchanged. *)
Theorem filterNodeVersions_idempotent s versions f kept :
  filterNodeVersions s versions f = Ok kept ->
  filterNodeVersions s kept f = Ok kept.
Proof.
  unfold filterNodeVersions. intros Hk.
  apply filterM_Ok in Hk. destruct Hk as [-> Hall].
  rewrite filterM_total.
  - rewrite filter_filter. f_equal. apply filter_ext.
    intros v. now rewrite andb_diag.
  - rewrite Forall_forall in *. intros v Hv.
    apply filter_In in Hv. now apply Hall.
Qed.

(** X21.  Filtering by one configuration and then by another gives the list
    that the other order gives, whenever both orders return; the
    configurations may hold any keys. *)
Theorem filterTwice_commutes s versions a b ab ba :
  filterTwice s versions a b = Ok ab ->
  filterTwice s versions b a = Ok ba ->
  ab = ba.
Proof.
  unfold filterTwice, filterNodeVersions. intros Hab Hba.
  destruct (filterM (fun v : NodeVersionIdentifier =>
                       isNodeVersion s v a) versions)
    as [xa | ] eqn:Ha; simpl in Hab; [ | discriminate ].
  destruct (filterM (fun v : NodeVersionIdentifier =>
                       isNodeVersion s v b) versions)
    as [xb | ] eqn:Hb; simpl in Hba; [ | discriminate ].
  apply filterM_Ok in Ha, Hb, Hab, Hba.
  destruct Ha as [-> _], Hb as [-> _], Hab as [-> _], Hba as [-> _].
  rewrite !filter_filter. apply filter_ext.
  intros v. apply andb_comm.
Qed.

End Filtering.

(** * Absolute and significant identifiers *)

Lemma split_dot_cons (s : string) :
  exists part rest, split_dot s = part :: rest.
Proof.
  destruct s as [ | c s]; simpl; [ now eexists _, _ | ].
  destruct (Ascii.eqb c "."); [ now eexists _, _ | ].
  destruct (split_dot s); now eexists _, _.
Qed.

(** X23.  Splitting at the dots gives one part more than there are dots, and
    joining the parts with dots gives the string back; so a version is
    absolute exactly when it has two dots, whatever stands between
    them. *)
Theorem isAbsoluteVersion_is_two_dots (version : NodeVersionInput) :
  List.length (split_dot (String_of version)) = S (dots (String_of version))
  /\ join_dot (split_dot (String_of version)) = String_of version
  /\ (isAbsoluteVersion version = true <-> dots (String_of version) = 2%nat).
Proof.
  unfold isAbsoluteVersion. generalize (String_of version) as text.
  clear version. intros version.
  assert (Hlen : forall s, List.length (split_dot s) = S (dots s)).
  { induction s as [ | c s IH]; simpl; [ reflexivity | ].
    destruct (Ascii.eqb c "."); simpl; [ now rewrite IH | ].
    destruct (split_dot s); simpl in *; [ discriminate | exact IH ]. }
  split; [ apply Hlen | ]. split.
  - induction version as [ | c s IH]; [ reflexivity | ].
    destruct (split_dot_cons s) as (part & rest & Hs).
    rewrite Hs in IH.
    change (split_dot (String c s)) with
      (if Ascii.eqb c "."%char then EmptyString :: split_dot s
       else match split_dot s with
            | h :: t => String c h :: t
            | [] => [String c EmptyString]
            end).
    rewrite Hs.
    destruct (Ascii.eqb c ".") eqn:Hc.
    + apply Ascii.eqb_eq in Hc. subst c.
      change (join_dot (EmptyString :: part :: rest)) with
        (String "."%char (join_dot (part :: rest))).
      now rewrite IH.
    + rewrite <- IH. destruct rest; reflexivity.
  - rewrite Hlen, Nat.eqb_eq. lia.
Qed.

(** * The single-dataset implementation *)

Module SingleDatasetFacts.

Import SingleDataset.

Lemma get_set_same key meta m : get key (set key meta m) = Some meta.
Proof.
  induction m as [ | [k old] m IH]; simpl.
  - now rewrite String.eqb_refl.
  - destruct (String.eqb k key) eqn:Hk; simpl; now rewrite Hk.
Qed.

Lemma get_set_other key key' meta m :
  key <> key' -> get key' (set key meta m) = get key' m.
Proof.
  intros Hne. induction m as [ | [k old] m IH]; simpl.
  - destruct (String.eqb key key') eqn:Hk; [ | reflexivity ].
    apply String.eqb_eq in Hk. contradiction.
  - destruct (String.eqb k key) eqn:Hk; simpl.
    + apply String.eqb_eq in Hk. subst k.
      destruct (String.eqb key key') eqn:Hk'; [ | reflexivity ].
      apply String.eqb_eq in Hk'. contradiction.
    + now rewrite IH.
Qed.

Lemma get_listed key m : get key m <> None <-> In key (keys m).
Proof.
  induction m as [ | [k meta] m IH]; simpl; [ tauto | ].
  destruct (String.eqb k key) eqn:Hk.
  - apply String.eqb_eq in Hk. split; [ now left | discriminate ].
  - apply String.eqb_neq in Hk. rewrite IH. tauto.
Qed.

Lemma keys_set_listed key meta m :
  In key (keys m) -> keys (set key meta m) = keys m.
Proof.
  induction m as [ | [k old] m IH]; simpl; [ tauto | ].
  destruct (String.eqb k key) eqn:Hk; simpl; [ reflexivity | ].
  apply String.eqb_neq in Hk. intros [Heq | Hin]; [ contradiction | ].
  now rewrite (IH Hin).
Qed.

Lemma keys_set_new key meta m :
  ~ In key (keys m) -> keys (set key meta m) = keys m ++ [key].
Proof.
  induction m as [ | [k old] m IH]; simpl; [ reflexivity | ].
  intros Hnot. destruct (String.eqb k key) eqn:Hk; simpl.
  - apply String.eqb_eq in Hk. tauto.
  - rewrite IH; tauto.
Qed.

Lemma In_dec_key (key : Key) (l : list Key) : In key l \/ ~ In key l.
Proof. destruct (in_dec string_dec key l); tauto. Qed.

Lemma sound_set key meta m :
  Schedule.version meta = key -> sound m -> sound (set key meta m).
Proof.
  intros Hv [Hnd Hver]. split.
  - destruct (In_dec_key key (keys m)) as [Hin | Hnot].
    + now rewrite keys_set_listed.
    + rewrite keys_set_new by assumption.
      apply NoDup_app; [ assumption | repeat constructor; simpl; tauto | ].
      intros k Hk [<- | []]. contradiction.
  - intros k meta' Hget.
    destruct (string_dec key k) as [<- | Hne].
    + rewrite get_set_same in Hget. congruence.
    + rewrite get_set_other in Hget by assumption. now apply Hver.
Qed.

Section Cache.

Context `{Platform}.

Lemma entry_of_version version raw :
  Schedule.version (entry_of version raw) = version.
Proof. reflexivity. Qed.

Lemma populate_sound json m : sound m -> sound (populate json m).
Proof.
  unfold populate. revert m.
  induction json as [ | [key raw] json IH]; simpl; intros m Hm;
    [ assumption | ].
  apply IH, sound_set; [ apply entry_of_version | assumption ].
Qed.

Lemma populate_keys json m key :
  In key (keys (populate json m)) <->
  In key (keys m) \/ exists entry, In entry json /\ key = replace_v (fst entry).
Proof.
  unfold populate. revert m.
  induction json as [ | [k raw] json IH]; simpl; intros m.
  - split; [ tauto | ]. intros [Hin | (entry & [] & _)]. exact Hin.
  - rewrite IH. simpl.
    assert (Hset : In key (keys (set (replace_v k) (entry_of (replace_v k) raw) m))
                   <-> In key (keys m) \/ key = replace_v k).
    { destruct (In_dec_key (replace_v k) (keys m)) as [Hin | Hnot].
      - rewrite keys_set_listed by assumption.
        split; [ tauto | ]. intros [Hk | ->]; assumption.
      - rewrite keys_set_new by assumption. rewrite in_app_iff. simpl.
        split; [ intros [Hk | [<- | []]]; tauto | ].
        intros [Hk | ->]; tauto. }
    rewrite Hset. split.
    + intros [[Hin | ->] | (entry & Hin & ->)].
      * now left.
      * right. exists (k, raw). split; [ now left | reflexivity ].
      * right. exists entry. split; [ now right | reflexivity ].
    + intros [Hin | (entry & [<- | Hin] & ->)].
      * left. now left.
      * left. now right.
      * right. now exists entry.
Qed.

(** With distinct versions in the response, the cache lists them in the
    order of the response. *)
Lemma populate_in_order json m :
  NoDup (keys m ++ map (fun entry => replace_v (fst entry)) json) ->
  keys (populate json m)
  = keys m ++ map (fun entry => replace_v (fst entry)) json.
Proof.
  unfold populate. revert m.
  induction json as [ | [k raw] json IH]; simpl; intros m Hnd.
  - now rewrite app_nil_r.
  - assert (Hnew : ~ In (replace_v k) (keys m)).
    { apply NoDup_remove_2 in Hnd. rewrite in_app_iff in Hnd. tauto. }
    rewrite IH; rewrite keys_set_new by assumption.
    + now rewrite <- app_assoc.
    + rewrite <- app_assoc. exact Hnd.
Qed.

Lemma populate_nonempty json m :
  json <> [] \/ m <> [] -> populate json m <> [].
Proof.
  intros Hne Hnil.
  assert (Hkeys : forall key, ~ In key (keys (populate json m)))
    by (rewrite Hnil; simpl; tauto).
  destruct json as [ | entry json].
  - destruct Hne as [Hne | Hne]; [ congruence | ].
    simpl in Hnil. contradiction.
  - apply (Hkeys (replace_v (fst entry))). apply populate_keys.
    right. exists entry. split; [ now left | reflexivity ].
Qed.

(** The predicates read the state through the cache and the clock. *)
Lemma getNodeVersion_view s1 s2 v :
  nodeVersionsMap s1 = nodeVersionsMap s2 ->
  getNodeVersion s1 v = getNodeVersion s2 v.
Proof. unfold getNodeVersion. now intros ->. Qed.

Lemma getNodeVersion_listed s key :
  In key (keys (nodeVersionsMap s)) ->
  exists meta, getNodeVersion s key = Ok meta.
Proof.
  intros Hin. apply get_listed in Hin. unfold getNodeVersion.
  cbn [String_of].
  destruct (get key (nodeVersionsMap s)) as [meta | ]; [ | contradiction ].
  now exists meta.
Qed.

Lemma scans_return s l :
  (forall key, In key l -> In key (keys (nodeVersionsMap s))) ->
  Forall (fun key : Key => returns (isNodeVersionCurrent s key)) l
  /\ Forall (fun key : Key => returns (isNodeVersionActive s key)) l
  /\ Forall (fun key : Key => returns (isNodeVersionMaintenance s key)) l.
Proof.
  intros Hl. repeat split; apply Forall_forall; intros key Hkey;
    destruct (getNodeVersion_listed s key (Hl key Hkey)) as [meta Hmeta];
    unfold isNodeVersionCurrent, isNodeVersionActive,
      isNodeVersionMaintenance, returns;
    rewrite Hmeta; simpl; now eexists.
Qed.

(** The first fetch, on an empty cache and an empty list. *)
Lemma fetch_on_empty s json :
  nodeVersionsMap s = [] ->
  nodeVersionsList s = [] ->
  let m := populate json [] in
  let s' :=
    mkState m (keys m)
      (last (filter (fun key : Key =>
                       holds (isNodeVersionCurrent
                                (mkState m (keys m) None None None (now s))
                                key)) (keys m)))
      (last (filter (fun key : Key =>
                       holds (isNodeVersionActive
                                (mkState m (keys m) None None None (now s))
                                key)) (keys m)))
      (last (filter (fun key : Key =>
                       holds (isNodeVersionMaintenance
                                (mkState m (keys m) None None None (now s))
                                key)) (keys m)))
      (now s) in
  fetchNodeVersions (Ok json) s = (Ok (keys m), s').
Proof.
  intros Hmap Hlist m s'. unfold fetchNodeVersions.
  rewrite Hmap, Hlist. simpl. fold m.
  set (view := mkState m (keys m) None None None (now s)) in *.
  assert (Hcur : forall s1, nodeVersionsMap s1 = m -> now s1 = now s ->
                 filterM (fun v : Key => isNodeVersionCurrent s1 v) (keys m)
                 = Ok (filter (fun key : Key =>
                                 holds (isNodeVersionCurrent view key))
                         (keys m))).
  { intros s1 Hm Hn.
    rewrite (filterM_ext _ (fun v : Key => isNodeVersionCurrent view v)).
    - apply filterM_total. now apply scans_return.
    - intros v. unfold isNodeVersionCurrent.
      rewrite (getNodeVersion_view s1 view) by exact Hm. now rewrite Hn. }
  assert (Hact : forall s1, nodeVersionsMap s1 = m -> now s1 = now s ->
                 filterM (fun v : Key => isNodeVersionActive s1 v) (keys m)
                 = Ok (filter (fun key : Key =>
                                 holds (isNodeVersionActive view key))
                         (keys m))).
  { intros s1 Hm Hn.
    rewrite (filterM_ext _ (fun v : Key => isNodeVersionActive view v)).
    - apply filterM_total. now apply scans_return.
    - intros v. unfold isNodeVersionActive.
      rewrite (getNodeVersion_view s1 view) by exact Hm. now rewrite Hn. }
  assert (Hmnt : forall s1, nodeVersionsMap s1 = m -> now s1 = now s ->
                 filterM (fun v : Key => isNodeVersionMaintenance s1 v) (keys m)
                 = Ok (filter
                         (fun key : Key =>
                            holds (isNodeVersionMaintenance view key))
                         (keys m))).
  { intros s1 Hm Hn.
    rewrite (filterM_ext _ (fun v : Key => isNodeVersionMaintenance view v)).
    - apply filterM_total. now apply scans_return.
    - intros v. unfold isNodeVersionMaintenance.
      rewrite (getNodeVersion_view s1 view) by exact Hm. now rewrite Hn. }
  rewrite Hcur, Hact, Hmnt by reflexivity. reflexivity.
Qed.

(** X24.  The first fetch fills the cache.  On an empty cache a fetch whose
    retrieval succeeds returns, with the list of the versions of the
    response, each once and without its first [v]; every listed version
    can then be looked up, and its entry carries that version.  With
    distinct versions in the response the list is in the order of the
    response.  A retrieval that fails leaves the state as it was. *)
Theorem fetch_fills_the_cache t0 json e :
  let run := fetchNodeVersions (Ok json) (initial t0) in
  fst run = Ok (nodeVersionsList (snd run))
  /\ NoDup (nodeVersionsList (snd run))
  /\ (forall key,
        In key (nodeVersionsList (snd run)) <->
        exists entry, In entry json /\ key = replace_v (fst entry))
  /\ (forall key,
        In key (nodeVersionsList (snd run)) ->
        exists meta,
          getNodeVersion (snd run) key = Ok meta
          /\ Schedule.version meta = key)
  /\ (NoDup (map (fun entry => replace_v (fst entry)) json) ->
      nodeVersionsList (snd run)
      = map (fun entry => replace_v (fst entry)) json)
  /\ now (snd run) = t0
  /\ fetchNodeVersions (Throw e) (initial t0) = (Throw failed, initial t0).
Proof.
  intros run. unfold run.
  rewrite (fetch_on_empty (initial t0) json eq_refl eq_refl). simpl.
  assert (Hsound : sound (populate json []))
    by (apply populate_sound; split; [ constructor | discriminate ]).
  destruct Hsound as [Hnd Hver].
  split; [ reflexivity | ]. split; [ exact Hnd | ]. split.
  { intros key. rewrite populate_keys. simpl. tauto. }
  split.
  { intros key Hkey. unfold getNodeVersion. simpl.
    apply get_listed in Hkey.
    destruct (get key (populate json [])) as [meta | ] eqn:Hget;
      [ | contradiction ].
    exists meta. split; [ reflexivity | now apply Hver ]. }
  split; [ | split; reflexivity ].
  intros Hdistinct. now rewrite populate_in_order.
Qed.

(** X25.  A cache that holds something is never fetched again.  A fetch on it
    returns the list and changes nothing, whatever the retrieval would
    give; so after a first fetch of a response that is not empty every
    later fetch is without effect.  An empty response leaves the cache
    empty, and the next call fetches again. *)
Theorem fetch_is_cached s t0 json again :
  (nodeVersionsMap s <> [] ->
   fetchNodeVersions again s = (Ok (nodeVersionsList s), s))
  /\ (json <> [] ->
      let s' := snd (fetchNodeVersions (Ok json) (initial t0)) in
      fetchNodeVersions again s' = (Ok (nodeVersionsList s'), s'))
  /\ fetchNodeVersions (Ok []) (initial t0) = (Ok [], initial t0).
Proof.
  assert (Hcached : forall s1, nodeVersionsMap s1 <> [] ->
             fetchNodeVersions again s1 = (Ok (nodeVersionsList s1), s1)).
  { intros s1 Hne. unfold fetchNodeVersions.
    destruct (nodeVersionsMap s1); [ contradiction | reflexivity ]. }
  split; [ apply Hcached | ]. split; [ | reflexivity ].
  intros Hjson s'. apply Hcached. unfold s'.
  rewrite (fetch_on_empty (initial t0) json eq_refl eq_refl). simpl.
  apply populate_nonempty. now left.
Qed.

(** X26.  The first fetch leaves in each aggregate the last listed version, by
    position in the list, for which its predicate returns true at the
    clock; an aggregate is undefined when no listed version is in that
    phase. *)
Theorem fetch_computes_latest t0 json :
  let s' := snd (fetchNodeVersions (Ok json) (initial t0)) in
  nodeVersionLatestCurrent s'
  = last (filter (fun key : Key => holds (isNodeVersionCurrent s' key))
            (nodeVersionsList s'))
  /\ nodeVersionLatestActive s'
     = last (filter (fun key : Key => holds (isNodeVersionActive s' key))
               (nodeVersionsList s'))
  /\ nodeVersionLatestMaintenance s'
     = last (filter (fun key : Key => holds (isNodeVersionMaintenance s' key))
               (nodeVersionsList s')).
Proof.
  intros s'. unfold s'.
  rewrite (fetch_on_empty (initial t0) json eq_refl eq_refl). simpl.
  set (m := populate json []).
  repeat split; f_equal; apply filter_ext; intros key;
    unfold isNodeVersionCurrent, isNodeVersionActive,
      isNodeVersionMaintenance;
    (erewrite getNodeVersion_view; [ reflexivity | reflexivity ]).
Qed.

End Cache.

End SingleDatasetFacts.

Section Agreement.

Context `{Collaborators} `{Platform}.

(** X27.  The two implementations agree on the lines both know.  For a version
    that is not absolute, on which the safe lookup of the one and the
    cache of the other give the same entry, at the same clock and after
    preload, the eight lifecycle predicates and the ESM predicate of the
    two implementations return the same. *)
Theorem implementations_agree_on_lines
  (s : State) (cache : SingleDataset.State) (v : NodeVersionInput)
  (meta : Schedule.t) :
  preloaded s = true ->
  now s = SingleDataset.now cache ->
  isAbsoluteVersion v = false ->
  getNodeScheduleInformationSafe v = Ok (Some meta) ->
  SingleDataset.getNodeVersion cache v = Ok meta ->
  isNodeVersionActive s v = SingleDataset.isNodeVersionActive cache v
  /\ isNodeVersionActiveOrCurrent s v
     = SingleDataset.isNodeVersionActiveOrCurrent cache v
  /\ isNodeVersionReleased s v = SingleDataset.isNodeVersionReleased cache v
  /\ isNodeVersionCurrent s v = SingleDataset.isNodeVersionCurrent cache v
  /\ isNodeVersionLTS s v = SingleDataset.isNodeVersionLTS cache v
  /\ isNodeVersionMaintained s v
     = SingleDataset.isNodeVersionMaintained cache v
  /\ isNodeVersionMaintainedOrLTS s v
     = SingleDataset.isNodeVersionMaintainedOrLTS cache v
  /\ isNodeVersionMaintenance s v
     = SingleDataset.isNodeVersionMaintenance cache v
  /\ isNodeVersionESM v = SingleDataset.isNodeVersionESM v.
Proof.
  intros Hp Hnow Habs Hmeta Hcache.
  unfold isNodeVersionActive, isNodeVersionActiveOrCurrent,
    isNodeVersionReleased, isNodeVersionCurrent, isNodeVersionLTS,
    isNodeVersionMaintained, isNodeVersionMaintainedOrLTS,
    isNodeVersionMaintenance,
    SingleDataset.isNodeVersionActive,
    SingleDataset.isNodeVersionActiveOrCurrent,
    SingleDataset.isNodeVersionReleased, SingleDataset.isNodeVersionCurrent,
    SingleDataset.isNodeVersionLTS, SingleDataset.isNodeVersionMaintained,
    SingleDataset.isNodeVersionMaintainedOrLTS,
    SingleDataset.isNodeVersionMaintenance.
  rewrite Hp, Habs, Hmeta, Hcache, <- Hnow. simpl. repeat split.
Qed.

End Agreement.

Section AbsoluteReleases.

Context `{Collaborators}.

(** X7.  An absolute release without a string lts label is never active, and
    from version 1 on never LTS, whatever the schedule says of its line:
    the schedule is not even consulted.  Whether an absolute release is
    released is read off its release date alone. *)
Theorem unlabelled_release_is_not_lts s v info :
  preloaded s = true ->
  isAbsoluteVersion v = true ->
  getNodeReleaseInformation v = Ok info ->
  (Release.lts info = None ->
   isNodeVersionActive s v = Ok false
   /\ (versionCompare v "1" >= 0 -> isNodeVersionLTS s v = Ok false))
  /\ isNodeVersionReleased s v = Ok (Release.date info <=? now s).
Proof.
  intros Hp Habs Hinfo.
  unfold isNodeVersionActive, isNodeVersionLTS, isNodeVersionReleased.
  rewrite Hp, Habs, Hinfo. simpl. split.
  - intros ->. simpl. split; [ reflexivity | ].
    intros Hge. replace (versionCompare v "1" >=? 0) with true by lia.
    reflexivity.
  - now rewrite Z.geb_leb.
Qed.

End AbsoluteReleases.

Section SignificantVersions.

Context `{Collaborators}.

(** X22.  After a preload that completes, the filter over the schedule
    identifiers answers [{}] with all of them, and [{ latestActive: true }]
    with those that compare equal to the aggregate; when no line was
    active at the preload and there are identifiers, it throws the
    unpreloaded error of the latest predicate. *)
Theorem filterSignificant_by_latestActive s s' :
  preloadNodeVersions s = (Ok tt, s') ->
  filterSignificantNodeVersions s' no_filters = Ok getNodeScheduleIdentifiers
  /\ (forall x,
        nodeVersionLatestActive s' = Some x ->
        filterSignificantNodeVersions s' (only Flag.latestActive true)
        = Ok (filter (fun v : NodeVersionIdentifier => versionCompare v x =? 0)
                getNodeScheduleIdentifiers))
  /\ (nodeVersionLatestActive s' = None ->
      getNodeScheduleIdentifiers <> [] ->
      filterSignificantNodeVersions s' (only Flag.latestActive true)
      = Throw (unpreloaded "isNodeVersionLatestActive")).
Proof.
  intros Hrun.
  destruct (preload_Ok _ _ Hrun)
    as (current & active & maintenance & _ & _ & _ & Hs).
  assert (Hp : preloaded s' = true) by (rewrite Hs; reflexivity).
  unfold filterSignificantNodeVersions, filterNodeVersions.
  rewrite Hp. simpl negb. cbv iota.
  assert (Hlatest : forall v,
             isNodeVersion s' v (only Flag.latestActive true)
             = (passed <- isNodeVersionLatestActive s' v ;;
                if passed then Ok true else Ok false))
    by reflexivity.
  split; [ | split ].
  - induction getNodeScheduleIdentifiers as [ | v l IH]; simpl;
      [ reflexivity | ].
    now rewrite IH.
  - intros x Hx.
    induction getNodeScheduleIdentifiers as [ | v l IH]; simpl;
      [ reflexivity | ].
    rewrite Hlatest, IH. unfold isNodeVersionLatestActive. rewrite Hx.
    simpl. destruct (versionCompare v x =? 0); reflexivity.
  - intros Hnone Hne.
    destruct getNodeScheduleIdentifiers as [ | v l]; [ contradiction | ].
    simpl. rewrite Hlatest. unfold isNodeVersionLatestActive.
    now rewrite Hnone.
Qed.

End SignificantVersions.

(** * The further properties on the sample repositories *)

Lemma safe_line14 :
  @getNodeScheduleInformationSafe Sample.published "14" = Ok (Some Runs.line14).
Proof. vm_compute. reflexivity. Qed.

Lemma safe_line0_10 :
  @getNodeScheduleInformationSafe Sample.published "0.10"
  = Ok (Some Runs.line0_10).
Proof. vm_compute. reflexivity. Qed.

Lemma everything_throws_before_preload_witness :
  @getNodeVersionStatus Sample.published (initial 0) "14"
  = Throw (unpreloaded "isNodeVersionActive").
Proof.
  apply (@everything_throws_before_preload Sample.published (initial 0) "14"
           no_filters eq_refl).
Defined.

Lemma untracked_line_is_nothing_witness :
  @isNodeVersionMaintainedOrLTS Sample.published Runs.tested "0.9" = Ok false.
Proof.
  assert (Hu : @untracked Sample.published "0.9")
    by (right; left; vm_compute; reflexivity).
  apply (@untracked_line_is_nothing Sample.published Runs.tested "0.9"
           eq_refl eq_refl Hu).
Defined.

Lemma activeOrCurrent_is_current_or_active_witness :
  exists c a,
    @isNodeVersionCurrent Sample.published Runs.tested "14" = Ok c
    /\ @isNodeVersionActive Sample.published Runs.tested "14" = Ok a
    /\ @isNodeVersionActiveOrCurrent Sample.published Runs.tested "14"
       = Ok (c || a).
Proof.
  apply (@activeOrCurrent_is_current_or_active Sample.published Runs.tested
           "14" Runs.line14 eq_refl safe_line14).
  - intros Habs. discriminate Habs.
  - by_computation.
Defined.

Lemma maintained_is_union_of_phases_witness :
  exists c a t,
    @isNodeVersionCurrent Sample.published Runs.tested "14" = Ok c
    /\ @isNodeVersionActive Sample.published Runs.tested "14" = Ok a
    /\ @isNodeVersionMaintenance Sample.published Runs.tested "14" = Ok t
    /\ @isNodeVersionMaintained Sample.published Runs.tested "14"
       = Ok (c || a || t).
Proof.
  apply (@maintained_is_union_of_phases Sample.published Runs.tested
           "14" Runs.line14 eq_refl safe_line14).
  - intros Habs. discriminate Habs.
  - by_computation.
Defined.

Lemma lifecycle_implies_released_witness :
  @isNodeVersionMaintainedOrLTS Sample.published Runs.tested "14" = Ok true
  /\ @isNodeVersionReleased Sample.published Runs.tested "15" = Ok true.
Proof.
  split.
  - apply (proj1 (@lifecycle_implies_released Sample.published Runs.tested
                    "14")).
    vm_compute. reflexivity.
  - apply (proj2 (@lifecycle_implies_released Sample.published Runs.tested
                    "15")).
    + vm_compute. reflexivity.
    + left. vm_compute. reflexivity.
Defined.

Lemma active_implies_LTS_witness :
  @isNodeVersionLTS Sample.published Runs.tested "14.15.0" = Ok true.
Proof.
  apply (@active_implies_LTS Sample.published Runs.tested "14.15.0").
  vm_compute. reflexivity.
Defined.

Lemma released_is_permanent_witness :
  @isNodeVersionReleased Sample.published
    (snd (datetime (Some (utc 2030 1 1)) Runs.tested)) "15.0.0" = Ok true
  /\ @isNodeVersionMaintainedOrLTS Sample.published
       (snd (datetime (Some (utc 2030 1 1)) Runs.tested)) "14" = Ok true.
Proof.
  assert (Ht : now Runs.tested <= utc 2030 1 1) by by_computation.
  split.
  - apply (proj1 (@released_is_permanent Sample.published Runs.tested
                    "15.0.0" (utc 2030 1 1) Ht)).
    vm_compute. reflexivity.
  - apply (proj2 (@released_is_permanent Sample.published Runs.tested
                    "14" (utc 2030 1 1) Ht)); vm_compute; reflexivity.
Defined.

Lemma end_of_life_is_final_witness :
  @isNodeVersionMaintained Sample.published
    (snd (datetime (Some (utc 2021 1 1)) Runs.tested)) "0.10" = Ok false
  /\ @isNodeVersionMaintainedOrLTS Sample.published
       (snd (datetime (Some (utc 2021 1 1)) Runs.tested)) "0.10" = Ok true.
Proof.
  destruct (@end_of_life_is_final Sample.published Runs.tested "0.10"
              Runs.line0_10 (utc 2021 1 1) eq_refl safe_line0_10)
    as (_ & _ & _ & _ & Hm & Hl).
  - intros Habs. discriminate Habs.
  - by_computation.
  - by_computation.
  - by_computation.
  - split; [ exact Hm | exact Hl ].
Defined.

Lemma latest_is_listed_and_in_phase_witness :
  In "14" (@getNodeScheduleIdentifiers Sample.published)
  /\ @isNodeVersionActive Sample.published Runs.tested "14" = Ok true
  /\ @isNodeVersionLatestActive Sample.published Runs.tested "14" = Ok true.
Proof.
  destruct (proj1 (proj2 (@latest_is_listed_and_in_phase Sample.published
                            (initial (utc 2020 11 3)) Runs.tested "14"
                            preload_tested)) eq_refl)
    as (Hin & Hphase & Hlatest).
  split; [ exact Hin | ]. split; [ exact Hphase | ].
  apply Hlatest. vm_compute. reflexivity.
Defined.

Lemma preload_again_changes_nothing_witness :
  @preloadNodeVersions Sample.published Runs.tested = (Ok tt, Runs.tested).
Proof.
  apply (@preload_again_changes_nothing Sample.published
           (initial (utc 2020 11 3)) Runs.tested preload_tested).
Defined.

Lemma status_of_14 :
  @getNodeVersionStatus Sample.published Runs.tested "14"
  = Ok (Status.Build true true false true true false false true true true
          false true true).
Proof. vm_compute. reflexivity. Qed.

Lemma status_flag_is_single_filter_witness :
  @isNodeVersion Sample.published Runs.tested "14" (only Flag.latestActive true)
  = Ok true
  /\ @isNodeVersion Sample.published Runs.tested "14" (only Flag.current true)
     = Ok false.
Proof.
  split.
  - apply (proj1 (@status_flag_is_single_filter Sample.published Runs.tested
                    "14" _ Flag.latestActive status_of_14)).
  - apply (proj1 (@status_flag_is_single_filter Sample.published Runs.tested
                    "14" _ Flag.current status_of_14)).
Defined.

Lemma status_returns_exactly_witness :
  returns (@getNodeVersionStatus Sample.published Runs.tested "14")
  /\ ~ returns (@getNodeVersionStatus Sample.published Runs.early "0.12").
Proof.
  split.
  - apply (proj2 (@status_returns_exactly Sample.published Runs.tested "14"
                    eq_refl)).
    split; [ reflexivity | ].
    split; [ exists (Some Runs.line14); exact safe_line14 | ].
    repeat split; discriminate.
  - intros Hreturns.
    apply (proj1 (@status_returns_exactly Sample.published Runs.early "0.12"
                    eq_refl)) in Hreturns.
    destruct Hreturns as (_ & _ & Hactive & _). now apply Hactive.
Defined.

Lemma falsy_keys_filter_nothing_witness :
  @isNodeVersion Sample.published (initial 0) "10" Sample.esmOff = Ok true
  /\ @filterNodeVersions Sample.published (initial 0) ["10"; "14"]
       Sample.esmOff
     = Ok ["10"; "14"].
Proof.
  apply (@falsy_keys_filter_nothing Sample.published (initial 0)
           Sample.esmOff ["10"; "14"] "10").
  repeat split.
  intros flag Hflag. simpl in Hflag.
  repeat (destruct Hflag as [<- | Hflag]; [ reflexivity | ]).
  destruct Hflag.
Defined.

Lemma between_is_gte_and_lte_witness :
  @isNodeVersion Sample.published (initial 0) "9"
    (with_between (Numeral "4", Text "8") no_filters)
  = @isNodeVersion Sample.published (initial 0) "9"
      (with_bounds (Numeral "4") "8" no_filters).
Proof.
  apply (@between_is_gte_and_lte Sample.published (initial 0) "9" no_filters
           (Numeral "4") (Text "8")); reflexivity.
Defined.

(** With the number [0] for both bounds the two configurations differ:
    the tuple is compared, the two keys are skipped. *)
Lemma between_zero_is_not_bounds_zero :
  @isNodeVersion Sample.published (initial 0) "9"
    (with_between (Numeral "0", Numeral "0") no_filters)
  = Ok false
  /\ @isNodeVersion Sample.published (initial 0) "9"
       (with_bounds (Numeral "0") (Numeral "0") no_filters)
     = Ok true.
Proof. split; vm_compute; reflexivity. Qed.

Lemma isNodeVersionThese_first_match_witness :
  @isNodeVersionThese Sample.published "8.1.0" [Text "4"; Text "8"] = true
  /\ @isNodeVersionThese Sample.published "0" [Text "4"; Numeral "0"; Text "0"]
     = false.
Proof.
  split.
  - apply (proj2 (proj2 (proj2 (@isNodeVersionThese_first_match
                                  Sample.published "8.1.0"
                                  [Text "4"; Text "8"])))).
    + intros seek [<- | [<- | []]]; reflexivity.
    + exists (Text "8").
      split; [ right; left; reflexivity | vm_compute; reflexivity ].
  - apply (proj1 (proj2 (@isNodeVersionThese_first_match
                           Sample.published "0"
                           [Text "4"; Numeral "0"; Text "0"]))
             [Text "4"] (Numeral "0") [Text "0"]).
    + reflexivity.
    + repeat constructor. vm_compute. discriminate.
    + vm_compute. reflexivity.
Defined.

Lemma filterNodeVersions_outcome_witness :
  @filterNodeVersions Sample.published Runs.early ["0.10"; "0.12"]
    Sample.latestActiveOnly
  = Throw (unpreloaded "isNodeVersionLatestActive").
Proof.
  apply (proj2 (@filterNodeVersions_outcome Sample.published Runs.early
                  ["0.10"; "0.12"] Sample.latestActiveOnly)).
  exists [], "0.10", ["0.12"].
  split; [ reflexivity | ]. split; [ constructor | ].
  vm_compute. reflexivity.
Defined.

Lemma filtered_active :
  @filterNodeVersions Sample.published Runs.tested
    ["10"; "12"; "13"; "14"; "15"] Sample.activeOnly
  = Ok ["12"; "14"].
Proof. vm_compute. reflexivity. Qed.

Lemma filterNodeVersions_idempotent_witness :
  @filterNodeVersions Sample.published Runs.tested ["12"; "14"]
    Sample.activeOnly
  = Ok ["12"; "14"].
Proof.
  apply (@filterNodeVersions_idempotent Sample.published Runs.tested
           ["10"; "12"; "13"; "14"; "15"] Sample.activeOnly ["12"; "14"]
           filtered_active).
Defined.

Lemma filtered_active_then_esm :
  @filterTwice Sample.published Runs.tested ["10"; "12"; "13"; "14"; "15"]
    Sample.activeOnly Sample.esmOnly
  = Ok ["12"; "14"].
Proof. vm_compute. reflexivity. Qed.

Lemma filtered_esm_then_active :
  @filterTwice Sample.published Runs.tested ["10"; "12"; "13"; "14"; "15"]
    Sample.esmOnly Sample.activeOnly
  = Ok ["12"; "14"].
Proof. vm_compute. reflexivity. Qed.

Lemma filterTwice_commutes_witness :
  @filterTwice Sample.published Runs.tested ["10"; "12"; "13"; "14"; "15"]
    Sample.activeOnly Sample.esmOnly
  = @filterTwice Sample.published Runs.tested ["10"; "12"; "13"; "14"; "15"]
      Sample.esmOnly Sample.activeOnly.
Proof.
  rewrite filtered_active_then_esm, filtered_esm_then_active.
  apply (f_equal (@Ok (list NodeVersionIdentifier))).
  apply (@filterTwice_commutes Sample.published Runs.tested
           ["10"; "12"; "13"; "14"; "15"] Sample.activeOnly Sample.esmOnly
           ["12"; "14"] ["12"; "14"] filtered_active_then_esm
           filtered_esm_then_active).
Defined.

Lemma isAbsoluteVersion_is_two_dots_witness :
  isAbsoluteVersion "14.15.0" = true.
Proof.
  apply (proj2 (proj2 (isAbsoluteVersion_is_two_dots "14.15.0"))).
  reflexivity.
Defined.

Lemma unlabelled_release_is_not_lts_witness :
  @isNodeVersionActive Sample.published Runs.tested "4.0.0" = Ok false
  /\ @isNodeVersionLTS Sample.published Runs.tested "4.0.0" = Ok false.
Proof.
  destruct (proj1 (@unlabelled_release_is_not_lts Sample.published Runs.tested
                     "4.0.0" (Release.Build (utc 2015 9 8) None)
                     eq_refl eq_refl eq_refl) eq_refl)
    as [Hactive Hlts].
  split; [ exact Hactive | apply Hlts; by_computation ].
Defined.

Lemma fetch_fills_the_cache_witness :
  SingleDataset.nodeVersionsList SampleResponse.fetched
  = ["0.10"; "10"; "13"; "14"; "15"].
Proof.
  apply (proj1 (proj2 (proj2 (proj2 (proj2
           (@SingleDatasetFacts.fetch_fills_the_cache SampleResponse.platform
              (utc 2020 11 3) SampleResponse.response EmptyString)))))).
  vm_compute.
  repeat (constructor; [ simpl; intuition discriminate | ]).
  constructor.
Defined.

Lemma fetch_is_cached_witness :
  @SingleDataset.fetchNodeVersions SampleResponse.platform
    (Throw "offline") SampleResponse.fetched
  = (Ok (SingleDataset.nodeVersionsList SampleResponse.fetched),
     SampleResponse.fetched).
Proof.
  apply (proj1 (proj2
           (@SingleDatasetFacts.fetch_is_cached SampleResponse.platform
              (SingleDataset.initial 0) (utc 2020 11 3)
              SampleResponse.response (Throw "offline")))).
  discriminate.
Defined.

Lemma cached_line14 :
  @SingleDataset.getNodeVersion SampleResponse.platform SampleResponse.fetched
    "14"
  = Ok Runs.line14.
Proof. vm_compute. reflexivity. Qed.

Lemma implementations_agree_on_lines_witness :
  @isNodeVersionActive Sample.published Runs.tested "14"
  = @SingleDataset.isNodeVersionActive SampleResponse.platform
      SampleResponse.fetched "14".
Proof.
  apply (@implementations_agree_on_lines Sample.published
           SampleResponse.platform Runs.tested SampleResponse.fetched "14"
           Runs.line14 eq_refl).
  - vm_compute. reflexivity.
  - reflexivity.
  - exact safe_line14.
  - exact cached_line14.
Defined.

(** The aggregates of the sample after its first fetch, as the test
    fixtures of the single-dataset implementation expect them. *)
Lemma fetched_sample_latest :
  SingleDataset.nodeVersionLatestCurrent SampleResponse.fetched = Some "15"
  /\ SingleDataset.nodeVersionLatestActive SampleResponse.fetched = Some "14"
  /\ SingleDataset.nodeVersionLatestMaintenance SampleResponse.fetched
     = Some "10".
Proof. repeat split; vm_compute; reflexivity. Qed.

Lemma filterSignificant_by_latestActive_witness :
  @filterSignificantNodeVersions Sample.published Runs.tested
    (only Flag.latestActive true)
  = Ok ["14"]
  /\ @filterSignificantNodeVersions Sample.published Runs.early
       (only Flag.latestActive true)
     = Throw (unpreloaded "isNodeVersionLatestActive").
Proof.
  split.
  - rewrite (proj1 (proj2 (@filterSignificant_by_latestActive Sample.published
                             (initial (utc 2020 11 3)) Runs.tested
                             preload_tested)) "14" eq_refl).
    vm_compute. reflexivity.
  - apply (proj2 (proj2 (@filterSignificant_by_latestActive Sample.published
                           (initial (utc 2015 3 1)) Runs.early
                           preload_early))).
    + reflexivity.
    + discriminate.
Defined.
